(** * Recipe keeper: the form view-model, the filter and the collection store

    A shallow embedding of [src/components/RecipeForm.tsx],
    [src/pages/Dashboard.tsx] and the recipe card.

    A string is the sequence of its UTF-16 code units.  React state is a
    record, a handler is a function on it, and an [await] splits a handler
    in two: the part that sends the request and the part that runs when the
    response arrives. *)

From Stdlib Require Import List Bool Arith NArith ZArith Lia.
From Stdlib Require Strings.Byte.
Import ListNotations.

(** ** Strings *)

(** A string of the host language: its code units in order, each a number
    below 65536. *)
Inductive string := EmptyString | String (c : N) (s : string).

Module Str.

Fixpoint eqb (s t : string) : bool :=
  match s, t with
  | EmptyString, EmptyString => true
  | String a s', String b t' => N.eqb a b && eqb s' t'
  | _, _ => false
  end.

Fixpoint append (s t : string) : string :=
  match s with
  | EmptyString => t
  | String c s' => String c (append s' t)
  end.

Fixpoint length (s : string) : nat :=
  match s with
  | EmptyString => 0
  | String _ s' => S (length s')
  end.

(** [ls.join(sep)] *)
Fixpoint concat (sep : string) (ls : list string) : string :=
  match ls with
  | [] => EmptyString
  | [x] => x
  | x :: xs => append x (append sep (concat sep xs))
  end.

(** A literal between double quotes stands for the string of its
    characters; only ASCII characters are written that way. *)
Fixpoint of_bytes (l : list Byte.byte) : option string :=
  match l with
  | [] => Some EmptyString
  | b :: l' =>
      if (Strings.Byte.to_N b <? 128)%N
      then option_map (String (Strings.Byte.to_N b)) (of_bytes l')
      else None
  end.

Fixpoint to_bytes (s : string) : option (list Byte.byte) :=
  match s with
  | EmptyString => Some []
  | String c s' =>
      if (c <? 128)%N then
        match Strings.Byte.of_N c, to_bytes s' with
        | Some b, Some l => Some (b :: l)
        | _, _ => None
        end
      else None
  end.

End Str.

Declare Scope str_scope.
Delimit Scope str_scope with str.
Bind Scope str_scope with string.
String Notation string Str.of_bytes Str.to_bytes : str_scope.
Infix "++" := Str.append (right associativity, at level 60) : str_scope.
Infix "=?" := Str.eqb (at level 70) : str_scope.
Open Scope str_scope.

(** ** String primitives of the host language *)

Module JS.

(** The lower-case letter of a capital letter, one code unit at a time, for
    the letters written out here: A-Z, the capital letters of Latin-1
    (U+00C0-U+00DE without the multiplication sign U+00D7) and the capital
    letters of the basic Greek alphabet (U+0391-U+03A9); each is 32 below
    its lower-case letter.  Any other unit stays. *)
Definition lower_unit (c : N) : N :=
  if (((65 <=? c) && (c <=? 90))
      || ((192 <=? c) && (c <=? 222) && negb (c =? 215))
      || ((913 <=? c) && (c <=? 937) && negb (c =? 930)))%N
  then (c + 32)%N else c.

(** The cased letters among the same units: the letters above, their
    lower-case letters, and the ordinal indicators and the micro sign of
    Latin-1. *)
Definition cased (c : N) : bool :=
  (((65 <=? c) && (c <=? 90)) || ((97 <=? c) && (c <=? 122))
   || (c =? 170) || (c =? 181) || (c =? 186)
   || ((192 <=? c) && (c <=? 214)) || ((216 <=? c) && (c <=? 246))
   || ((248 <=? c) && (c <=? 255))
   || ((913 <=? c) && (c <=? 929)) || ((931 <=? c) && (c <=? 937))
   || ((945 <=? c) && (c <=? 969)))%N.

(** The units below 256 that a word may contain without ending it
    (apostrophe, full stop, colon, the spacing accents, the soft hyphen, the
    middle dot). *)
Definition caseIgnorable (c : N) : bool :=
  ((c =? 39) || (c =? 46) || (c =? 58) || (c =? 94) || (c =? 96)
   || (c =? 168) || (c =? 173) || (c =? 175) || (c =? 180) || (c =? 183)
   || (c =? 184))%N.

(** A cased letter follows, after units that do not end a word. *)
Fixpoint beforeCased (s : string) : bool :=
  match s with
  | EmptyString => false
  | String c s' =>
      if cased c then true
      else if caseIgnorable c then beforeCased s' else false
  end.

(** [String.prototype.toLowerCase].  The capital sigma (U+03A3) becomes
    the final sigma (U+03C2) when it ends a word, i.e. when a cased letter
    precedes it ([afterCased]) and none follows, and the small sigma
    (U+03C3) otherwise; every other unit goes through [lower_unit].  This
    is the function of the host on strings whose units are in
    U+0000-U+00FF, U+0391-U+03A9 or U+03B1-U+03C9; the case tables of the
    host beyond those are not written out, and a unit outside them is
    copied.  What is proved of the filter for every string is proved for
    any lower-casing function. *)
Fixpoint lower_from (afterCased : bool) (s : string) : string :=
  match s with
  | EmptyString => EmptyString
  | String c s' =>
      let c' :=
        if (c =? 931)%N
        then if afterCased && negb (beforeCased s') then 962%N else 963%N
        else lower_unit c in
      String c'
        (lower_from (if cased c then true
                     else if caseIgnorable c then afterCased else false) s')
  end.

Definition toLowerCase (s : string) : string := lower_from false s.

(** [t] starts [s]. *)
Fixpoint startsWith (s t : string) : bool :=
  match t, s with
  | EmptyString, _ => true
  | String _ _, EmptyString => false
  | String b t', String a s' => N.eqb a b && startsWith s' t'
  end.

(** [s.includes(t)]: [t] occurs in [s] at some position. *)
Fixpoint includes (s t : string) : bool :=
  startsWith s t ||
  match s with
  | EmptyString => false
  | String _ s' => includes s' t
  end.

(** White space and line terminators: TAB, LF, VT, FF, CR, SP, the no-break
    space, U+1680, U+2000-U+200A, the line and paragraph separators
    U+2028 and U+2029, U+202F, U+205F, U+3000 and U+FEFF. *)
Definition isWhiteSpace (c : N) : bool :=
  (((9 <=? c) && (c <=? 13)) || (c =? 32) || (c =? 160) || (c =? 5760)
   || ((8192 <=? c) && (c <=? 8202)) || (c =? 8232) || (c =? 8233)
   || (c =? 8239) || (c =? 8287) || (c =? 12288) || (c =? 65279))%N.

Fixpoint trimStart (s : string) : string :=
  match s with
  | EmptyString => EmptyString
  | String c s' => if isWhiteSpace c then trimStart s' else s
  end.

Fixpoint trimEnd (s : string) : string :=
  match s with
  | EmptyString => EmptyString
  | String c s' =>
      let t := trimEnd s' in
      if isWhiteSpace c && (t =? "") then "" else String c t
  end.

Definition trim (s : string) : string := trimEnd (trimStart s).

(** [l.filter((x, i) => f(x, i))] and [l.map((x, i) => f(x, i))], the
    index counted from [i]. *)
Fixpoint filter_from {A} (f : A -> nat -> bool) (i : nat) (l : list A) : list A :=
  match l with
  | [] => []
  | x :: l' => if f x i then x :: filter_from f (S i) l' else filter_from f (S i) l'
  end.

Fixpoint map_from {A B} (f : A -> nat -> B) (i : nat) (l : list A) : list B :=
  match l with
  | [] => []
  | x :: l' => f x i :: map_from f (S i) l'
  end.

Definition filter_i {A} (f : A -> nat -> bool) (l : list A) := filter_from f 0 l.
Definition map_i {A B} (f : A -> nat -> B) (l : list A) := map_from f 0 l.

(** A [number] as the form holds it: the result of [parseInt], an integer
    or [NaN]. *)
Inductive number := NaN | Int (z : Z).

End JS.

(** ** The recipe entity *)

Inductive Difficulty := easy | medium | hard.

Inductive Cuisine :=
  italian | mexican | asian | american | french | indian | mediterranean | other.

(** The enumerations are unions of string literals; these are the strings. *)
Definition difficulty_str (d : Difficulty) : string :=
  match d with easy => "easy" | medium => "medium" | hard => "hard" end.

Definition cuisine_str (c : Cuisine) : string :=
  match c with
  | italian => "italian" | mexican => "mexican" | asian => "asian"
  | american => "american" | french => "french" | indian => "indian"
  | mediterranean => "mediterranean" | other => "other"
  end.

(** [Omit<Recipe, 'id' | 'created_at'>]: the state of the form and the
    argument of [handleSaveRecipe]. *)
Record RecipeData := mkData {
  title : string;
  ingredients : list string;
  instructions : string;
  difficulty : Difficulty;
  cuisine : Cuisine;
  prep_time : option JS.number;
  cook_time : option JS.number;
  servings : option JS.number
}.

(** [Recipe] of the dashboard: the fields above with the two the store
    assigns. *)
Record Recipe := mkRecipe {
  id : string;
  created_at : string;
  fields :> RecipeData
}.

(** ** The filter (Dashboard.tsx, [filteredRecipes]) *)

(** The test on the search text, for the [toLowerCase] of the host. *)
Definition matchesSearchWith (toLowerCase : string -> string)
           (searchTerm : string) (recipe : Recipe) : bool :=
  JS.includes (toLowerCase (title recipe)) (toLowerCase searchTerm)
  || existsb (fun ingredient =>
                JS.includes (toLowerCase ingredient) (toLowerCase searchTerm))
             (ingredients recipe).

Definition matchesSearch (searchTerm : string) (recipe : Recipe) : bool :=
  matchesSearchWith JS.toLowerCase searchTerm recipe.

Definition matchesCuisine (cuisineFilter : string) (recipe : Recipe) : bool :=
  (cuisineFilter =? "all") || (cuisine_str (cuisine recipe) =? cuisineFilter).

Definition matchesDifficulty (difficultyFilter : string) (recipe : Recipe) : bool :=
  (difficultyFilter =? "all") || (difficulty_str (difficulty recipe) =? difficultyFilter).

(** The filter, for the [toLowerCase] of the host. *)
Definition filteredRecipesWith (toLowerCase : string -> string)
           (recipes : list Recipe)
           (searchTerm cuisineFilter difficultyFilter : string) : list Recipe :=
  filter (fun recipe =>
            matchesSearchWith toLowerCase searchTerm recipe
            && matchesCuisine cuisineFilter recipe
            && matchesDifficulty difficultyFilter recipe)
         recipes.

Definition filteredRecipes (recipes : list Recipe)
           (searchTerm cuisineFilter difficultyFilter : string) : list Recipe :=
  filter (fun recipe =>
            matchesSearch searchTerm recipe
            && matchesCuisine cuisineFilter recipe
            && matchesDifficulty difficultyFilter recipe)
         recipes.

(** ** What the specification says of the filter *)

(** [l'] is [l] with exactly the elements satisfying [P] kept, in order. *)
Inductive Kept {A : Type} (P : A -> Prop) : list A -> list A -> Prop :=
| Kept_nil : Kept P [] []
| Kept_take x l l' : P x -> Kept P l l' -> Kept P (x :: l) (x :: l')
| Kept_drop x l l' : ~ P x -> Kept P l l' -> Kept P (x :: l) l'.

(** [l'] is [l] with some elements left out, the others in order. *)
Inductive Subsequence {A : Type} : list A -> list A -> Prop :=
| Sub_nil : Subsequence [] []
| Sub_take x l l' : Subsequence l' l -> Subsequence (x :: l') (x :: l)
| Sub_skip x l l' : Subsequence l' l -> Subsequence l' (x :: l).

(** [hay], lower-cased by [lower], contains the lower-cased [text]. *)
Definition LoweredContains (lower : string -> string) (hay text : string) : Prop :=
  exists before after, lower hay = before ++ lower text ++ after.

Definition MatchesTextWith (lower : string -> string) (text : string)
           (r : Recipe) : Prop :=
  LoweredContains lower (title r) text
  \/ exists ingredient,
       In ingredient (ingredients r) /\ LoweredContains lower ingredient text.

Definition MatchesCuisine (value : string) (r : Recipe) : Prop :=
  value = "all" \/ value = cuisine_str (cuisine r).

Definition MatchesDifficulty (value : string) (r : Recipe) : Prop :=
  value = "all" \/ value = difficulty_str (difficulty r).

Definition MatchesWith (lower : string -> string)
           (text cuisine difficulty : string) (r : Recipe) : Prop :=
  MatchesTextWith lower text r
  /\ MatchesCuisine cuisine r /\ MatchesDifficulty difficulty r.

(** Letter case on ASCII text, said without any lower-casing: two units
    are the same letter when they are equal or are the capital and the
    small form of one of the letters A-Z. *)
Definition same_letter (a b : N) : Prop :=
  a = b
  \/ ((65 <= a <= 90)%N /\ b = (a + 32)%N)
  \/ ((65 <= b <= 90)%N /\ a = (b + 32)%N).

Fixpoint SameUpToCase (s t : string) : Prop :=
  match s, t with
  | EmptyString, EmptyString => True
  | String a s', String b t' => same_letter a b /\ SameUpToCase s' t'
  | _, _ => False
  end.

(** [hay] has a piece that is [text] up to letter case. *)
Definition ContainsUpToCase (hay text : string) : Prop :=
  exists before piece after,
    hay = before ++ piece ++ after /\ SameUpToCase piece text.

Fixpoint IsAscii (s : string) : Prop :=
  match s with
  | EmptyString => True
  | String c s' => (c < 128)%N /\ IsAscii s'
  end.

(** What lower-casing does to ASCII text: each capital letter A-Z becomes
    its small letter, and nothing else changes. *)
Fixpoint ascii_lower (s : string) : string :=
  match s with
  | EmptyString => EmptyString
  | String c s' =>
      String (if ((65 <=? c) && (c <=? 90))%N then (c + 32)%N else c)
             (ascii_lower s')
  end.

(** A lower-casing that does this on ASCII text, as the one of the host
    does. *)
Definition LowersAscii (lower : string -> string) : Prop :=
  forall s, IsAscii s -> lower s = ascii_lower s.

(** A string of white space only. *)
Fixpoint Blank (s : string) : Prop :=
  match s with
  | EmptyString => True
  | String c s' => JS.isWhiteSpace c = true /\ Blank s'
  end.

(** ** The form view-model (RecipeForm.tsx) *)

Module RecipeForm.

(** [{ ...prev, field: v }] for each field the form writes. *)
Definition with_title v (prev : RecipeData) :=
  mkData v (ingredients prev) (instructions prev) (difficulty prev)
         (cuisine prev) (prep_time prev) (cook_time prev) (servings prev).
Definition with_ingredients v (prev : RecipeData) :=
  mkData (title prev) v (instructions prev) (difficulty prev)
         (cuisine prev) (prep_time prev) (cook_time prev) (servings prev).
Definition with_instructions v (prev : RecipeData) :=
  mkData (title prev) (ingredients prev) v (difficulty prev)
         (cuisine prev) (prep_time prev) (cook_time prev) (servings prev).
Definition with_difficulty v (prev : RecipeData) :=
  mkData (title prev) (ingredients prev) (instructions prev) v
         (cuisine prev) (prep_time prev) (cook_time prev) (servings prev).
Definition with_cuisine v (prev : RecipeData) :=
  mkData (title prev) (ingredients prev) (instructions prev) (difficulty prev)
         v (prep_time prev) (cook_time prev) (servings prev).
Definition with_prep_time v (prev : RecipeData) :=
  mkData (title prev) (ingredients prev) (instructions prev) (difficulty prev)
         (cuisine prev) v (cook_time prev) (servings prev).
Definition with_cook_time v (prev : RecipeData) :=
  mkData (title prev) (ingredients prev) (instructions prev) (difficulty prev)
         (cuisine prev) (prep_time prev) v (servings prev).
Definition with_servings v (prev : RecipeData) :=
  mkData (title prev) (ingredients prev) (instructions prev) (difficulty prev)
         (cuisine prev) (prep_time prev) (cook_time prev) v.

(** The argument of [useState]. *)
Definition initialFormData : RecipeData :=
  {| title := "";
     ingredients := [""];
     instructions := "";
     difficulty := medium;
     cuisine := other;
     prep_time := None;
     cook_time := None;
     servings := Some (JS.Int 4) |}.

(** The effect on [recipe], when the form is given one. *)
Definition seed (recipe : RecipeData) : RecipeData :=
  {| title := title recipe;
     ingredients :=
       if (0 <? List.length (ingredients recipe))%nat
       then ingredients recipe else [""];
     instructions := instructions recipe;
     difficulty := difficulty recipe;
     cuisine := cuisine recipe;
     prep_time := prep_time recipe;
     cook_time := cook_time recipe;
     servings := servings recipe |}.

(** The state of a form once mounted with the prop [recipe]. *)
Definition mount (recipe : option Recipe) : RecipeData :=
  match recipe with
  | Some r => seed r
  | None => initialFormData
  end.

(** [handleSubmit]: the value handed to [onSubmit]. *)
Definition handleSubmit (formData : RecipeData) : RecipeData :=
  let filteredIngredients :=
    filter (fun ingredient => negb (JS.trim ingredient =? ""))
           (ingredients formData) in
  with_ingredients filteredIngredients formData.

Definition addIngredient (prev : RecipeData) : RecipeData :=
  with_ingredients (ingredients prev ++ [""]) prev.

Definition removeIngredient (index : nat) (prev : RecipeData) : RecipeData :=
  with_ingredients
    (JS.filter_i (fun _ i => negb (i =? index)%nat) (ingredients prev)) prev.

Definition updateIngredient (index : nat) (value : string) (prev : RecipeData)
  : RecipeData :=
  with_ingredients
    (JS.map_i (fun ingredient i => if (i =? index)%nat then value else ingredient)
              (ingredients prev)) prev.

(** What the user can do to the form.  A numeric input delivers what its
    handler stores: nothing for an empty input, the [parseInt] of its text
    otherwise. *)
Inductive Event :=
| ChangeTitle (value : string)
| ClickAddIngredient
| ChangeIngredient (index : nat) (value : string)
| ClickRemoveIngredient (index : nat)
| ChangeInstructions (value : string)
| SelectDifficulty (value : Difficulty)
| SelectCuisine (value : Cuisine)
| ChangeServings (value : option JS.number)
| ChangePrepTime (value : option JS.number)
| ChangeCookTime (value : option JS.number)
| ClickSubmit
| ClickCancel.

(** The control the event needs is on the page: an ingredient input for
    each index, a remove button for each index when
    [formData.ingredients.length > 1]. *)
Definition enabled (e : Event) (formData : RecipeData) : bool :=
  match e with
  | ChangeIngredient index _ => (index <? List.length (ingredients formData))%nat
  | ClickRemoveIngredient index =>
      (1 <? List.length (ingredients formData))%nat
      && (index <? List.length (ingredients formData))%nat
  | _ => true
  end.

(** The form state after the event. *)
Definition update (e : Event) (prev : RecipeData) : RecipeData :=
  match e with
  | ChangeTitle value => with_title value prev
  | ClickAddIngredient => addIngredient prev
  | ChangeIngredient index value => updateIngredient index value prev
  | ClickRemoveIngredient index => removeIngredient index prev
  | ChangeInstructions value => with_instructions value prev
  | SelectDifficulty value => with_difficulty value prev
  | SelectCuisine value => with_cuisine value prev
  | ChangeServings value => with_servings value prev
  | ChangePrepTime value => with_prep_time value prev
  | ChangeCookTime value => with_cook_time value prev
  | ClickSubmit => prev
  | ClickCancel => prev
  end.

(** The text a numeric input shows for [value || '']: empty for no value,
    [NaN] and 0, and such an input is in range when it is empty or at
    least its [min]. *)
Definition inRange (min : Z) (value : option JS.number) : bool :=
  match value with
  | None | Some JS.NaN | Some (JS.Int 0) => true
  | Some (JS.Int z) => (min <=? z)%Z
  end.

(** The page lets a form be submitted when its [required] controls (title,
    instructions) are not empty and its numeric inputs are in range
    ([min="1"] for servings, [min="0"] for the two times); the ingredient
    inputs carry no such attribute. *)
Definition checkValidity (formData : RecipeData) : bool :=
  negb (title formData =? "") && negb (instructions formData =? "")
  && inRange 1 (servings formData)
  && inRange 0 (prep_time formData) && inRange 0 (cook_time formData).

(** The callbacks of the props. *)
Inductive Callback :=
| OnSubmit (recipe : RecipeData)
| OnCancel.

(** The callback the event ends in, if any: a submit event reaches
    [handleSubmit] only on a valid form. *)
Definition emit (e : Event) (formData : RecipeData) : option Callback :=
  match e with
  | ClickSubmit =>
      if checkValidity formData then Some (OnSubmit (handleSubmit formData))
      else None
  | ClickCancel => Some OnCancel
  | _ => None
  end.

(** An editing session: the events in turn, each one possible when it
    comes. *)
Fixpoint exec (es : list Event) (formData : RecipeData) : option RecipeData :=
  match es with
  | [] => Some formData
  | e :: es' =>
      if enabled e formData then exec es' (update e formData) else None
  end.

End RecipeForm.

(** ** The collection store (Dashboard.tsx) *)

Module Dashboard.

(** The signed-in user of [useAuth]. *)
Record User := mkUser { uid : string; email : string }.

(** A notification: [toast({ title, description, variant })]. *)
Record Toast := mkToast {
  toast_title : string;
  description : option string;
  destructive : bool
}.

(** The calls on the remote store: the select of all recipes, newest
    first; the update of the row of an id; the insert of a row; the delete
    of the row of an id. *)
Inductive Request :=
| Select
| Update (id : string) (row : RecipeData) (user_id : string)
| Insert (row : RecipeData) (user_id : string)
| Delete (id : string).

(** What the remote store answers: [{ data, error }], the error by its
    message. *)
Record Response := mkResponse {
  data : option (list Recipe);
  error : option string
}.

(** A handler suspended at its [await], with what its closure holds. *)
Inductive Awaiting :=
| InFetch
| InSave (editingRecipe : option Recipe)
| InDelete.

(** The state of the page: the hooks of [Dashboard], the state of the
    form it shows, and what has left the page (notifications, requests,
    requests not yet answered, navigations). *)
Record State := mkState {
  user : option User;
  recipes : list Recipe;
  loading : bool;
  showForm : bool;
  editingRecipe : option Recipe;
  searchTerm : string;
  cuisineFilter : string;
  difficultyFilter : string;
  deleteDialogOpen : bool;
  recipeToDelete : option string;
  form : RecipeData;
  toasts : list Toast;
  sent : list Request;
  inflight : list Awaiting;
  navigated : list string
}.

Definition setUser v (st : State) : State :=
  mkState v (recipes st) (loading st) (showForm st) (editingRecipe st)
         (searchTerm st) (cuisineFilter st) (difficultyFilter st)
         (deleteDialogOpen st) (recipeToDelete st) (form st) (toasts st)
         (sent st) (inflight st) (navigated st).
Definition setRecipes v (st : State) : State :=
  mkState (user st) v (loading st) (showForm st) (editingRecipe st)
         (searchTerm st) (cuisineFilter st) (difficultyFilter st)
         (deleteDialogOpen st) (recipeToDelete st) (form st) (toasts st)
         (sent st) (inflight st) (navigated st).
Definition setLoading v (st : State) : State :=
  mkState (user st) (recipes st) v (showForm st) (editingRecipe st)
         (searchTerm st) (cuisineFilter st) (difficultyFilter st)
         (deleteDialogOpen st) (recipeToDelete st) (form st) (toasts st)
         (sent st) (inflight st) (navigated st).
Definition setShowForm v (st : State) : State :=
  mkState (user st) (recipes st) (loading st) v (editingRecipe st)
         (searchTerm st) (cuisineFilter st) (difficultyFilter st)
         (deleteDialogOpen st) (recipeToDelete st) (form st) (toasts st)
         (sent st) (inflight st) (navigated st).
Definition setEditingRecipe v (st : State) : State :=
  mkState (user st) (recipes st) (loading st) (showForm st) v
         (searchTerm st) (cuisineFilter st) (difficultyFilter st)
         (deleteDialogOpen st) (recipeToDelete st) (form st) (toasts st)
         (sent st) (inflight st) (navigated st).
Definition setSearchTerm v (st : State) : State :=
  mkState (user st) (recipes st) (loading st) (showForm st)
         (editingRecipe st) v (cuisineFilter st) (difficultyFilter st)
         (deleteDialogOpen st) (recipeToDelete st) (form st) (toasts st)
         (sent st) (inflight st) (navigated st).
Definition setCuisineFilter v (st : State) : State :=
  mkState (user st) (recipes st) (loading st) (showForm st)
         (editingRecipe st) (searchTerm st) v (difficultyFilter st)
         (deleteDialogOpen st) (recipeToDelete st) (form st) (toasts st)
         (sent st) (inflight st) (navigated st).
Definition setDifficultyFilter v (st : State) : State :=
  mkState (user st) (recipes st) (loading st) (showForm st)
         (editingRecipe st) (searchTerm st) (cuisineFilter st) v
         (deleteDialogOpen st) (recipeToDelete st) (form st) (toasts st)
         (sent st) (inflight st) (navigated st).
Definition setDeleteDialogOpen v (st : State) : State :=
  mkState (user st) (recipes st) (loading st) (showForm st)
         (editingRecipe st) (searchTerm st) (cuisineFilter st)
         (difficultyFilter st) v (recipeToDelete st) (form st) (toasts st)
         (sent st) (inflight st) (navigated st).
Definition setRecipeToDelete v (st : State) : State :=
  mkState (user st) (recipes st) (loading st) (showForm st)
         (editingRecipe st) (searchTerm st) (cuisineFilter st)
         (difficultyFilter st) (deleteDialogOpen st) v (form st) (toasts st)
         (sent st) (inflight st) (navigated st).
Definition setForm v (st : State) : State :=
  mkState (user st) (recipes st) (loading st) (showForm st)
         (editingRecipe st) (searchTerm st) (cuisineFilter st)
         (difficultyFilter st) (deleteDialogOpen st) (recipeToDelete st) v
         (toasts st) (sent st) (inflight st) (navigated st).
Definition setToasts v (st : State) : State :=
  mkState (user st) (recipes st) (loading st) (showForm st)
         (editingRecipe st) (searchTerm st) (cuisineFilter st)
         (difficultyFilter st) (deleteDialogOpen st) (recipeToDelete st)
         (form st) v (sent st) (inflight st) (navigated st).
Definition setSent v (st : State) : State :=
  mkState (user st) (recipes st) (loading st) (showForm st)
         (editingRecipe st) (searchTerm st) (cuisineFilter st)
         (difficultyFilter st) (deleteDialogOpen st) (recipeToDelete st)
         (form st) (toasts st) v (inflight st) (navigated st).
Definition setInflight v (st : State) : State :=
  mkState (user st) (recipes st) (loading st) (showForm st)
         (editingRecipe st) (searchTerm st) (cuisineFilter st)
         (difficultyFilter st) (deleteDialogOpen st) (recipeToDelete st)
         (form st) (toasts st) (sent st) v (navigated st).
Definition setNavigated v (st : State) : State :=
  mkState (user st) (recipes st) (loading st) (showForm st)
         (editingRecipe st) (searchTerm st) (cuisineFilter st)
         (difficultyFilter st) (deleteDialogOpen st) (recipeToDelete st)
         (form st) (toasts st) (sent st) (inflight st) v.

Definition toast (t : Toast) (st : State) : State :=
  setToasts (toasts st ++ [t]) st.

Definition navigate (path : string) (st : State) : State :=
  setNavigated (navigated st ++ [path]) st.

(** A request leaves and its handler waits. *)
Definition send (r : Request) (k : Awaiting) (st : State) : State :=
  setInflight (inflight st ++ [k]) (setSent (sent st ++ [r]) st).

(** [fetchRecipes] up to its [await]. *)
Definition fetchRecipes (st : State) : State := send Select InFetch st.

(** [fetchRecipes] from its [await] on. *)
Definition fetchRecipes_resume (r : Response) (st : State) : State :=
  let st1 :=
    match error r with
    | Some message =>
        toast (mkToast "Error fetching recipes" (Some message) true) st
    | None =>
        setRecipes (match data r with Some d => d | None => [] end) st
    end in
  setLoading false st1.

(** The effect on [user]. *)
Definition effect (st : State) : State :=
  match user st with
  | None => navigate "/auth" st
  | Some _ => fetchRecipes st
  end.

(** The message of the error [user!.id] raises without a user. *)
Definition null_user_message : string :=
  "Cannot read properties of null (reading 'id')".

(** [handleSaveRecipe] up to its [await]. *)
Definition handleSaveRecipe (recipeData : RecipeData) (st : State) : State :=
  match editingRecipe st with
  | Some editing =>
      match user st with
      | Some u => send (Update (id editing) recipeData (uid u))
                       (InSave (Some editing)) st
      | None => toast (mkToast "Error updating recipe"
                               (Some null_user_message) true) st
      end
  | None =>
      match user st with
      | Some u => send (Insert recipeData (uid u)) (InSave None) st
      | None => toast (mkToast "Error creating recipe"
                               (Some null_user_message) true) st
      end
  end.

(** [handleSaveRecipe] from its [await] on; [editing] is the
    [editingRecipe] of its closure. *)
Definition handleSaveRecipe_resume (editing : option Recipe) (r : Response)
           (st : State) : State :=
  match error r with
  | Some message =>
      toast (mkToast (match editing with
                      | Some _ => "Error updating recipe"
                      | None => "Error creating recipe"
                      end)
                     (Some message) true) st
  | None =>
      let st1 :=
        toast (mkToast (match editing with
                        | Some _ => "Recipe updated successfully"
                        | None => "Recipe created successfully"
                        end)
                       None false) st in
      fetchRecipes (setEditingRecipe None (setShowForm false st1))
  end.

(** [handleDeleteRecipe] up to its [await]; an empty id is falsy. *)
Definition handleDeleteRecipe (st : State) : State :=
  match recipeToDelete st with
  | None => st
  | Some target =>
      if target =? "" then st else send (Delete target) InDelete st
  end.

(** [handleDeleteRecipe] from its [await] on. *)
Definition handleDeleteRecipe_resume (r : Response) (st : State) : State :=
  let st1 :=
    match error r with
    | Some message =>
        toast (mkToast "Error deleting recipe" (Some message) true) st
    | None =>
        fetchRecipes (toast (mkToast "Recipe deleted successfully" None false) st)
    end in
  setRecipeToDelete None (setDeleteDialogOpen false st1).

(** The recipes on the page. *)
Definition visible (st : State) : list Recipe :=
  filteredRecipes (recipes st) (searchTerm st) (cuisineFilter st)
                  (difficultyFilter st).

(** The values of the two filter menus. *)
Definition cuisineItems : list string :=
  ["all"; "italian"; "mexican"; "asian"; "american"; "french"; "indian";
   "mediterranean"; "other"].

Definition difficultyItems : list string := ["all"; "easy"; "medium"; "hard"].

(** What can happen to the page: the hook [useAuth] delivers a user, the
    user acts on a control, or the remote store answers the request that
    is [k]-th among those waiting. *)
Inductive Event :=
| AuthChange (u : option User)
| TypeSearch (value : string)
| SelectCuisineFilter (value : string)
| SelectDifficultyFilter (value : string)
| ClickAdd
| CardEdit (i : nat)
| CardDelete (i : nat)
| Form (e : RecipeForm.Event)
| DialogCancel
| DialogAction
| Settle (k : nat) (r : Response).

(** The page shows the form alone while [showForm]; otherwise the search
    bar, the menus and the add button, the cards of the visible recipes
    once [loading] is off, and the dialog while [deleteDialogOpen]. *)
Definition enabled (e : Event) (st : State) : bool :=
  match e with
  | AuthChange _ => true
  | TypeSearch _ | ClickAdd => negb (showForm st)
  | SelectCuisineFilter value =>
      negb (showForm st) && existsb (Str.eqb value) cuisineItems
  | SelectDifficultyFilter value =>
      negb (showForm st) && existsb (Str.eqb value) difficultyItems
  | CardEdit i | CardDelete i =>
      negb (showForm st) && negb (loading st)
      && (i <? List.length (visible st))%nat
  | Form e => showForm st && RecipeForm.enabled e (form st)
  | DialogCancel | DialogAction => negb (showForm st) && deleteDialogOpen st
  | Settle k _ => (k <? List.length (inflight st))%nat
  end.

(** The waiting handlers without the [k]-th. *)
Definition without {A} (k : nat) (l : list A) : list A :=
  firstn k l ++ skipn (S k) l.

(** The page after the event.  The form is mounted when [showForm] turns
    on; the dialog closes itself through [onOpenChange] on both of its
    buttons, after the handler of the action button. *)
Definition handle (e : Event) (st : State) : State :=
  match e with
  | AuthChange u => effect (setUser u st)
  | TypeSearch value => setSearchTerm value st
  | SelectCuisineFilter value => setCuisineFilter value st
  | SelectDifficultyFilter value => setDifficultyFilter value st
  | ClickAdd =>
      setForm (RecipeForm.mount (editingRecipe st)) (setShowForm true st)
  | CardEdit i =>
      match nth_error (visible st) i with
      | Some recipe =>
          setForm (RecipeForm.mount (Some recipe))
                  (setShowForm true (setEditingRecipe (Some recipe) st))
      | None => st
      end
  | CardDelete i =>
      match nth_error (visible st) i with
      | Some recipe =>
          setDeleteDialogOpen true (setRecipeToDelete (Some (id recipe)) st)
      | None => st
      end
  | Form fe =>
      let st1 := setForm (RecipeForm.update fe (form st)) st in
      match RecipeForm.emit fe (form st) with
      | Some (RecipeForm.OnSubmit recipeData) => handleSaveRecipe recipeData st1
      | Some RecipeForm.OnCancel => setEditingRecipe None (setShowForm false st1)
      | None => st1
      end
  | DialogCancel => setDeleteDialogOpen false st
  | DialogAction => setDeleteDialogOpen false (handleDeleteRecipe st)
  | Settle k r =>
      match nth_error (inflight st) k with
      | Some waiting =>
          let st1 := setInflight (without k (inflight st)) st in
          match waiting with
          | InFetch => fetchRecipes_resume r st1
          | InSave editing => handleSaveRecipe_resume editing r st1
          | InDelete => handleDeleteRecipe_resume r st1
          end
      | None => st
      end
  end.

(** The first render. *)
Definition initial (u : option User) : State :=
  {| user := u;
     recipes := [];
     loading := true;
     showForm := false;
     editingRecipe := None;
     searchTerm := "";
     cuisineFilter := "all";
     difficultyFilter := "all";
     deleteDialogOpen := false;
     recipeToDelete := None;
     form := RecipeForm.initialFormData;
     toasts := [];
     sent := [];
     inflight := [];
     navigated := [] |}.

(** The page once its effect has run. *)
Definition mounted (u : option User) : State := effect (initial u).

(** A session: the events in turn, each one possible when it comes. *)
Fixpoint exec (es : list Event) (st : State) : option State :=
  match es with
  | [] => Some st
  | e :: es' => if enabled e st then exec es' (handle e st) else None
  end.

(** What the page shows: the form alone while [showForm]; otherwise, below
    the search bar, the spinner while [loading]; without a visible recipe
    one of two messages, the first with a button to add a recipe; otherwise
    a card for each visible recipe. *)
Inductive Body :=
| FormAlone
| Spinner
| NoRecipesYet
| NoRecipesFound
| Grid (cards : list Recipe).

Definition body (st : State) : Body :=
  if showForm st then FormAlone
  else if loading st then Spinner
  else if (List.length (visible st) =? 0)%nat
       then if (List.length (recipes st) =? 0)%nat
            then NoRecipesYet else NoRecipesFound
       else Grid (visible st).

End Dashboard.

(** ** The card of a recipe (RecipeCard.tsx) *)

Module RecipeCard.

(** [recipe.ingredients.slice(0, 3)]: the ingredients the card lists. *)
Definition shownIngredients (recipe : Recipe) : list string :=
  firstn 3 (ingredients recipe).

(** Whether the card adds the dots: [recipe.ingredients.length > 3]. *)
Definition ellipsis (recipe : Recipe) : bool :=
  (3 <? List.length (ingredients recipe))%nat.

(** The text of the ingredient line: the listed ingredients joined by
    [', '], and the dots. *)
Definition ingredientsLine (recipe : Recipe) : string :=
  Str.concat ", " (shownIngredients recipe)
  ++ (if ellipsis recipe then "..." else "").

End RecipeCard.

(** ** Sessions of the page, for the claims on the delete dialog *)

Section Sessions.

Import Dashboard.

(** In the session [es] from [st0] the delete button of a card showing the
    recipe [target] was clicked. *)
Definition Requested (st0 : State) (es : list Event) (target : string) : Prop :=
  exists es1 es2 i st1 recipe,
    es = (es1 ++ CardDelete i :: es2)%list
    /\ exec es1 st0 = Some st1
    /\ nth_error (visible st1) i = Some recipe
    /\ id recipe = target.

(** In the session [es] from [st0] the action button of the dialog was
    clicked while the dialog was open on [target], after a request for
    it. *)
Definition Confirmed (st0 : State) (es : list Event) (target : string) : Prop :=
  exists es1 es2 st1,
    es = (es1 ++ DialogAction :: es2)%list
    /\ exec es1 st0 = Some st1
    /\ recipeToDelete st1 = Some target
    /\ deleteDialogOpen st1 = true
    /\ Requested st0 es1 target.

(** The id pending confirmation: the id the open dialog asks about. *)
Definition pendingDelete (st : State) : option string :=
  if deleteDialogOpen st then recipeToDelete st else None.

(** Data of the examples. *)
Definition cook : User := mkUser "u1" "cook@example.org".

Definition pasta : Recipe :=
  mkRecipe "r2" "2024-01-02T00:00:00Z"
           (mkData "Pasta Bake" ["Penne"; "Tomato sauce"] "Bake" easy italian
                   None None None).

(** The string of the given code units. *)
Fixpoint units (l : list N) : string :=
  match l with
  | [] => EmptyString
  | c :: l' => String c (units l')
  end.

(** KOTOS and KOTOSOUPA in Greek capitals (kappa U+039A, omicron U+039F,
    tau U+03A4, sigma U+03A3, upsilon U+03A5, pi U+03A0, alpha U+0391), and
    a recipe of that title. *)
Definition kotos : string := units [922; 927; 932; 927; 931]%N.

Definition kotosoupa : string :=
  units [922; 927; 932; 927; 931; 927; 933; 928; 913]%N.

Definition soup : Recipe :=
  mkRecipe "r3" "2024-01-03T00:00:00Z"
           (mkData kotosoupa ["Rice"] "Simmer" medium mediterranean
                   None None None).

Definition tacos : Recipe :=
  mkRecipe "r1" "2024-01-01T00:00:00Z"
           (mkData "Tacos" ["Corn tortillas"] "Fill and fold" easy mexican
                   None None None).

Definition answer_tacos : Response := mkResponse (Some [tacos]) None.
Definition answer_done : Response := mkResponse None None.
Definition answer_failed : Response := mkResponse None (Some "connection lost").

(** In the session [es] the remote store has delivered the recipe [r] in
    one of its answers. *)
Definition Delivered (es : list Event) (r : Recipe) : Prop :=
  exists k answer d,
    In (Settle k answer) es /\ data answer = Some d /\ In r d.

(** The row a request carries, if it carries one. *)
Definition row_of (req : Request) : option RecipeData :=
  match req with
  | Update _ row _ | Insert row _ => Some row
  | Select | Delete _ => None
  end.

(** A row with a title, with instructions, and without an ingredient that
    is empty after trimming. *)
Definition CleanRow (row : RecipeData) : Prop :=
  title row <> "" /\ instructions row <> ""
  /\ Forall (fun s => JS.trim s <> "") (ingredients row).

(** Without a user the page stays empty and silent. *)
Definition SignedOut (st : State) : Prop :=
  user st = None /\ sent st = [] /\ inflight st = [] /\ recipes st = []
  /\ recipeToDelete st = None /\ In "/auth" (navigated st).

(** A recipe is being edited only while the form is shown. *)
Definition EditingShown (st : State) : Prop :=
  showForm st = false -> editingRecipe st = None.

(** The id of the row a request changes or deletes, if it does. *)
Definition target_of (req : Request) : option string :=
  match req with
  | Update target _ _ | Delete target => Some target
  | Select | Insert _ _ => None
  end.

(** In the session [es] the remote store has delivered a recipe of the id
    [target]. *)
Definition Known (es : list Event) (target : string) : Prop :=
  exists r, Delivered es r /\ id r = target.

End Sessions.

(** ** Lemmas on the string primitives *)

Section StringFacts.

Lemma str_eqb_refl s : (s =? s) = true.
Proof. induction s as [|c s IH]; simpl; [reflexivity|]. now rewrite N.eqb_refl. Qed.

Lemma str_eqb_eq s t : (s =? t) = true <-> s = t.
Proof.
  revert t. induction s as [|a s IH]; intros [|b t]; simpl;
    try (split; [discriminate | discriminate]); [tauto|].
  rewrite andb_true_iff, N.eqb_eq, IH. split.
  - intros [-> ->]. reflexivity.
  - intros H. injection H as -> ->. auto.
Qed.

Lemma str_eqb_neq s t : (s =? t) = false <-> s <> t.
Proof.
  rewrite <- str_eqb_eq. destruct (s =? t); split; congruence.
Qed.

Lemma str_eqb_spec s t : reflect (s = t) (s =? t).
Proof. apply iff_reflect. symmetry. apply str_eqb_eq. Qed.

Lemma append_assoc (s t u : string) : (s ++ t) ++ u = s ++ t ++ u.
Proof. induction s as [|c s IH]; simpl; [reflexivity | now rewrite IH]. Qed.

Lemma startsWith_spec s t :
  JS.startsWith s t = true <-> exists rest, s = t ++ rest.
Proof.
  revert s; induction t as [|b t IH]; intros s; simpl.
  - split; [intros _; now exists s | intros _; now destruct s].
  - destruct s as [|a s]; simpl.
    + split; [discriminate | intros [r Hr]; discriminate].
    + rewrite andb_true_iff, IH. split.
      * intros [Hab [r Hr]]. apply N.eqb_eq in Hab. subst. now exists r.
      * intros [r Hr]. injection Hr as -> ->. split; [apply N.eqb_refl|now exists r].
Qed.

Lemma includes_spec s t :
  JS.includes s t = true <-> exists before after, s = before ++ t ++ after.
Proof.
  induction s as [|a s IH].
  - cbn [JS.includes]. rewrite orb_false_r, startsWith_spec. split.
    + intros [r Hr]. now exists "", r.
    + intros (b & r & H). destruct b; simpl in H; [now exists r|discriminate].
  - cbn [JS.includes]. rewrite orb_true_iff, startsWith_spec, IH. split.
    + intros [[r Hr] | (b & r & H)].
      * now exists "", r.
      * exists (String a b), r. simpl. now rewrite H.
    + intros (b & r & H). destruct b as [|c b]; simpl in H.
      * left. now exists r.
      * injection H as -> ->. right. now exists b, r.
Qed.

Lemma includes_empty s : JS.includes s "" = true.
Proof. destruct s; reflexivity. Qed.

(** The test of the code on lower-cased strings. *)
Lemma includes_lowered lower hay text :
  JS.includes (lower hay) (lower text) = true <-> LoweredContains lower hay text.
Proof. apply includes_spec. Qed.

Lemma ascii_lower_app s t : ascii_lower (s ++ t) = ascii_lower s ++ ascii_lower t.
Proof.
  induction s as [|c s IH]; simpl; [reflexivity | now rewrite IH].
Qed.

(** A lower-cased ASCII text that splits comes from a text that splits the
    same way. *)
Lemma ascii_lower_split s : forall u v,
  ascii_lower s = u ++ v ->
  exists s1 s2, s = s1 ++ s2 /\ ascii_lower s1 = u /\ ascii_lower s2 = v.
Proof.
  induction s as [|c s IH]; intros u v H.
  - destruct u; simpl in H; [|discriminate].
    exists "", "". simpl. now subst v.
  - destruct u as [|a u]; simpl in H.
    + exists "", (String c s). simpl. now subst v.
    + injection H as Ha Hs. destruct (IH _ _ Hs) as (s1 & s2 & E & L1 & L2).
      exists (String c s1), s2. simpl. subst. repeat split.
Qed.

(** Two texts have the same lower-cased form exactly when they are the
    same up to the case of the letters A-Z. *)
Lemma ascii_lower_same s : forall t,
  ascii_lower s = ascii_lower t <-> SameUpToCase s t.
Proof.
  induction s as [|a s IH]; intros [|b t]; simpl;
    try (split; [discriminate | contradiction]); [tauto|].
  rewrite <- IH. unfold same_letter. split.
  - intros H. injection H as Hc Hs. split; [|exact Hs].
    destruct (N.leb_spec 65 a), (N.leb_spec a 90), (N.leb_spec 65 b),
      (N.leb_spec b 90); simpl in Hc; lia.
  - intros [Hc ->]. f_equal.
    destruct (N.leb_spec 65 a), (N.leb_spec a 90), (N.leb_spec 65 b),
      (N.leb_spec b 90); simpl; lia.
Qed.

Lemma IsAscii_app s t : IsAscii (s ++ t) <-> IsAscii s /\ IsAscii t.
Proof. induction s as [|c s IH]; simpl; [tauto | rewrite IH; tauto]. Qed.

(** The lower-casing of this file does to ASCII text what the host does. *)
Lemma toLowerCase_ascii : LowersAscii JS.toLowerCase.
Proof.
  unfold LowersAscii, JS.toLowerCase. generalize false.
  intros prev s. revert prev. induction s as [|c s IH]; intros prev H; simpl.
  - reflexivity.
  - destruct H as [Hc Hs]. rewrite (IH _ Hs). f_equal.
    destruct (N.eqb_spec c 931); [lia|]. unfold JS.lower_unit.
    destruct (N.leb_spec 65 c), (N.leb_spec c 90), (N.leb_spec 192 c),
      (N.leb_spec 913 c); simpl; try reflexivity; lia.
Qed.

(** On ASCII text the test of the code is containment up to letter
    case. *)
Lemma lowered_ascii lower hay text :
  LowersAscii lower -> IsAscii hay -> IsAscii text ->
  (LoweredContains lower hay text <-> ContainsUpToCase hay text).
Proof.
  intros L Hh Ht. unfold LoweredContains, ContainsUpToCase.
  rewrite (L _ Hh), (L _ Ht). split.
  - intros (b & a & H).
    destruct (ascii_lower_split _ _ _ H) as (s1 & s23 & -> & L1 & L23).
    destruct (ascii_lower_split _ _ _ L23) as (s2 & s3 & -> & L2 & L3).
    exists s1, s2, s3. split; [reflexivity|]. now apply ascii_lower_same.
  - intros (b & piece & a & -> & H). apply ascii_lower_same in H.
    exists (ascii_lower b), (ascii_lower a).
    now rewrite !ascii_lower_app, H.
Qed.

End StringFacts.

(** ** The filter keeps what matches *)

Section FilterFacts.

Lemma Kept_filter {A} (P : A -> Prop) (f : A -> bool) :
  (forall x, f x = true <-> P x) ->
  forall l, Kept P l (filter f l).
Proof.
  intros Hf l. induction l as [|x l IH]; simpl.
  - constructor.
  - destruct (f x) eqn:E.
    + apply Kept_take; [now apply Hf | exact IH].
    + apply Kept_drop; [|exact IH].
      intros HP. apply Hf in HP. congruence.
Qed.

(** What is kept is determined. *)
Lemma Kept_unique {A} (P : A -> Prop) l l1 :
  Kept P l l1 -> forall l2, Kept P l l2 -> l1 = l2.
Proof.
  induction 1 as [|x l l1 Hx _ IH|x l l1 Hx _ IH]; intros l2 H2;
    inversion H2; subst; try contradiction; auto.
  f_equal. auto.
Qed.

Lemma Kept_In {A} (P : A -> Prop) l l' :
  Kept P l l' -> forall x, In x l' <-> In x l /\ P x.
Proof.
  induction 1 as [|y l l' Hy _ IH|y l l' Hy _ IH]; intros x; simpl.
  - tauto.
  - rewrite IH. split.
    + intros [->|[H1 H2]]; auto.
    + intros [[->|H1] H2]; auto.
  - rewrite IH. split.
    + intros [H1 H2]; auto.
    + intros [[->|H1] H2]; [contradiction|auto].
Qed.

Lemma Subsequence_filter {A} (f : A -> bool) l : Subsequence (filter f l) l.
Proof.
  induction l as [|x l IH]; simpl.
  - constructor.
  - destruct (f x); now constructor.
Qed.

Lemma filter_all {A} (f : A -> bool) l :
  (forall x, f x = true) -> filter f l = l.
Proof.
  intros Hf. induction l as [|x l IH]; simpl; [reflexivity|].
  now rewrite Hf, IH.
Qed.

Lemma matchesSearchWith_spec lower text r :
  matchesSearchWith lower text r = true <-> MatchesTextWith lower text r.
Proof.
  unfold matchesSearchWith, MatchesTextWith.
  rewrite orb_true_iff, includes_lowered, existsb_exists.
  split; (intros [H|(i & Hi & H)]; [now left|right]);
    exists i; split; auto; now apply includes_lowered.
Qed.

Lemma matchesCuisine_spec value r :
  matchesCuisine value r = true <-> MatchesCuisine value r.
Proof.
  unfold matchesCuisine, MatchesCuisine.
  rewrite orb_true_iff, !str_eqb_eq. intuition congruence.
Qed.

Lemma matchesDifficulty_spec value r :
  matchesDifficulty value r = true <-> MatchesDifficulty value r.
Proof.
  unfold matchesDifficulty, MatchesDifficulty.
  rewrite orb_true_iff, !str_eqb_eq. intuition congruence.
Qed.

Lemma matchesSearch_empty r : matchesSearch "" r = true.
Proof.
  unfold matchesSearch, matchesSearchWith.
  change (JS.toLowerCase "") with "". now rewrite includes_empty.
Qed.

(** The example of the specification: the search ignores letter case. *)
Example pasta_bake :
  let r := mkRecipe "1" "2024-01-01"
                    (mkData "Pasta Bake" [] "" easy italian None None None) in
  filteredRecipes [r] "PASTA" "all" "all" = [r].
Proof. reflexivity. Qed.

(** The scenario of the specification: a cuisine filter alone. *)
Example tacos_and_ramen :
  let tacos := mkRecipe "1" "2024-01-02"
                 (mkData "Tacos" [] "" easy mexican None None None) in
  let ramen := mkRecipe "2" "2024-01-01"
                 (mkData "Ramen" [] "" medium asian None None None) in
  filteredRecipes [tacos; ramen] "" "mexican" "all" = [tacos].
Proof. reflexivity. Qed.

End FilterFacts.

(** C1, as the claim states it, fails: the title KOTOSOUPA, in Greek
    capitals, contains the text KOTOS as it stands, yet the recipe is not
    shown for that text: lower-casing ends the text in a final sigma, and
    the lower-cased title has a medial sigma there. *)
Lemma final_sigma_title_is_not_found :
  (exists after, title soup = kotos ++ after)
  /\ filteredRecipes [soup] kotos "all" "all" = [].
Proof.
  split.
  - exists (units [927; 933; 928; 913]%N). reflexivity.
  - reflexivity.
Qed.

(** C1, amended: the filter returns, in the order of the collection, exactly
    the recipes that match the text, the cuisine and the difficulty of the
    query; a recipe matches the text when its lower-cased title, or one of
    its lower-cased ingredients, contains the lower-cased text, whatever
    the lower-casing of the host; for a lower-casing that does to ASCII
    text what the host does, the empty text matches every recipe and, on
    ASCII titles, ingredients and text, matching is containment up to the
    case of the letters; a recipe matches a cuisine or a difficulty when
    the filter value is "all" or is the recipe's own; the filter of the
    page is this filter, and it finds "Pasta Bake" for "PASTA". *)
Theorem filteredRecipes_exactly_the_matches :
  forall (lower : string -> string) (C : list Recipe)
         (text cuisine difficulty : string),
    Kept (MatchesWith lower text cuisine difficulty) C
         (filteredRecipesWith lower C text cuisine difficulty)
    /\ (forall r, In r (filteredRecipesWith lower C text cuisine difficulty)
                  <-> In r C /\ MatchesWith lower text cuisine difficulty r)
    /\ (LowersAscii lower ->
        (forall r : Recipe, MatchesTextWith lower "" r)
        /\ (forall r : Recipe,
               IsAscii text -> IsAscii (title r) ->
               Forall IsAscii (ingredients r) ->
               (MatchesTextWith lower text r
                <-> ContainsUpToCase (title r) text
                    \/ exists ingredient,
                         In ingredient (ingredients r)
                         /\ ContainsUpToCase ingredient text)))
    /\ filteredRecipes C text cuisine difficulty
       = filteredRecipesWith JS.toLowerCase C text cuisine difficulty
    /\ filteredRecipes [pasta] "PASTA" "all" "all" = [pasta].
Proof.
  intros lower C text cu di.
  assert (K : Kept (MatchesWith lower text cu di) C
                   (filteredRecipesWith lower C text cu di)).
  { apply Kept_filter. intros r. unfold MatchesWith.
    rewrite !andb_true_iff, matchesSearchWith_spec, matchesCuisine_spec,
      matchesDifficulty_spec. tauto. }
  split; [exact K|]. split; [apply Kept_In; exact K|].
  split; [|split; reflexivity].
  intros L. split.
  - intros r. left. exists "", (lower (title r)).
    rewrite (L "" I). reflexivity.
  - intros r Ht Hr Hi. unfold MatchesTextWith.
    rewrite (lowered_ascii lower _ _ L Hr Ht). split.
    + intros [H|(i & Hin & H)]; [now left|right]. exists i. split; [exact Hin|].
      rewrite Forall_forall in Hi. now apply (lowered_ascii lower _ _ L (Hi _ Hin) Ht).
    + intros [H|(i & Hin & H)]; [now left|right]. exists i. split; [exact Hin|].
      rewrite Forall_forall in Hi. now apply (lowered_ascii lower _ _ L (Hi _ Hin) Ht).
Qed.

Lemma filteredRecipes_exactly_the_matches_witness :
  (forall r : Recipe, MatchesTextWith JS.toLowerCase "" r)
  /\ (MatchesTextWith JS.toLowerCase "PASTA" pasta
      <-> ContainsUpToCase (title pasta) "PASTA"
          \/ exists ingredient,
               In ingredient (ingredients pasta)
               /\ ContainsUpToCase ingredient "PASTA").
Proof.
  destruct (filteredRecipes_exactly_the_matches
              JS.toLowerCase [pasta] "PASTA" "all" "all")
    as (_ & _ & H & _).
  destruct (H toLowerCase_ascii) as [H1 H2]. split; [exact H1|].
  apply H2.
  - simpl. repeat split; lia.
  - simpl. repeat split; lia.
  - repeat constructor; simpl; lia.
Defined.

(** C6: the visible recipes are a subsequence of the collection, in its
    order, and the neutral query (empty text, "all", "all") shows the whole
    collection. *)
Theorem filteredRecipes_subsequence_and_neutral :
  forall (C : list Recipe) (text cuisine difficulty : string),
    Subsequence (filteredRecipes C text cuisine difficulty) C
    /\ filteredRecipes C "" "all" "all" = C.
Proof.
  intros C text cu di. split.
  - apply Subsequence_filter.
  - apply filter_all. intros r. now rewrite matchesSearch_empty.
Qed.

(** ** The form *)

Section FormFacts.

Import RecipeForm.

Lemma trimStart_cases s :
  (JS.trimStart s = "" /\ Blank s)
  \/ exists c t, JS.trimStart s = String c t /\ JS.isWhiteSpace c = false.
Proof.
  induction s as [|c s IH]; simpl.
  - left. auto.
  - destruct (JS.isWhiteSpace c) eqn:E.
    + destruct IH as [[H1 H2]|H]; [left; auto|right; exact H].
    + right. now exists c, s.
Qed.

(** Empty after trimming is white space only. *)
Lemma trim_empty_iff_Blank s : JS.trim s = "" <-> Blank s.
Proof.
  unfold JS.trim. split.
  - intros H. destruct (trimStart_cases s) as [[_ B]|(c & t & E & W)]; [exact B|].
    rewrite E in H. simpl in H. rewrite W in H. discriminate.
  - induction s as [|c s IH]; simpl; [reflexivity|].
    intros [W B]. rewrite W. auto.
Qed.

Lemma length_filter_but_one {A} index : forall (l : list A) k,
  List.length l <=
  S (List.length (JS.filter_from (fun _ i => negb (i =? index)%nat) k l)).
Proof.
  induction l as [|x l IH]; intros k; simpl; [lia|].
  destruct (Nat.eqb_spec k index) as [->|Hk]; simpl.
  - clear IH. enough (H : forall (l : list A) j, (index < j)%nat ->
      JS.filter_from (fun _ i => negb (i =? index)%nat) j l = l).
    { rewrite H; lia. }
    clear. induction l as [|y l IH]; intros j Hj; simpl; [reflexivity|].
    destruct (Nat.eqb_spec j index); [lia|]. simpl. rewrite IH; [reflexivity|lia].
  - specialize (IH (S k)). lia.
Qed.

Lemma length_map_from {A B} (f : A -> nat -> B) : forall l k,
  List.length (JS.map_from f k l) = List.length l.
Proof. induction l as [|x l IH]; intros k; simpl; auto. Qed.

(** An event the page allows leaves at least one ingredient slot. *)
Lemma update_keeps_a_slot e d :
  enabled e d = true -> ingredients d <> [] -> ingredients (update e d) <> [].
Proof.
  intros He Hd. destruct e; simpl; try exact Hd.
  - destruct (ingredients d); discriminate.
  - unfold JS.map_i. intros H. apply (f_equal (@List.length _)) in H.
    rewrite length_map_from in H. destruct (ingredients d); [congruence|discriminate].
  - simpl in He. apply andb_true_iff in He as [H1 _]. apply Nat.ltb_lt in H1.
    unfold JS.filter_i. intros H. apply (f_equal (@List.length _)) in H.
    pose proof (length_filter_but_one index (ingredients d) 0) as L.
    rewrite H in L. simpl in L. lia.
Qed.

Lemma mount_has_a_slot recipe : ingredients (mount recipe) <> [].
Proof.
  destruct recipe as [r|]; simpl; [|discriminate].
  destruct (ingredients r); simpl; discriminate.
Qed.

Lemma update_servings e d :
  (forall v, e <> ChangeServings v) -> servings (update e d) = servings d.
Proof.
  intros He. destruct e; simpl; try reflexivity. now elim (He value).
Qed.

(** A form without a title or without instructions is not submitted. *)
Lemma submit_needs_title_and_instructions d :
  title d = "" \/ instructions d = "" -> emit ClickSubmit d = None.
Proof.
  intros [H|H]; unfold emit, checkValidity; rewrite H; simpl;
    [reflexivity | now rewrite andb_false_r].
Qed.

(** The function alone empties a list of one slot: the guard is the
    missing button. *)
Example removeIngredient_alone :
  ingredients (removeIngredient 0 initialFormData) = [].
Proof. reflexivity. Qed.

End FormFacts.

(** C2: submission drops exactly the ingredients that are empty after
    trimming, keeps the others in their order and with their own text, and
    leaves every other field of the draft as it is; "Salt", "", "  ",
    "Pepper" become "Salt", "Pepper". *)
Theorem handleSubmit_drops_blank_ingredients :
  forall d : RecipeData,
    let out := RecipeForm.handleSubmit d in
    Kept (fun s => JS.trim s <> "") (ingredients d) (ingredients out)
    /\ title out = title d
    /\ instructions out = instructions d
    /\ difficulty out = difficulty d
    /\ cuisine out = cuisine d
    /\ prep_time out = prep_time d
    /\ cook_time out = cook_time d
    /\ servings out = servings d
    /\ ingredients
         (RecipeForm.handleSubmit
            (RecipeForm.with_ingredients ["Salt"; ""; "  "; "Pepper"] d))
       = ["Salt"; "Pepper"].
Proof.
  intros d out. split; [|repeat split].
  apply Kept_filter. intros s.
  rewrite negb_true_iff. apply str_eqb_neq.
Qed.

(** C7: with one ingredient slot the page offers no removal, and along any
    editing session that starts with at least one slot (as every mounted
    form does) the ingredient sequence is never empty. *)
Theorem ingredients_never_empty :
  forall d : RecipeData,
    (List.length (ingredients d) = 1%nat ->
     forall index, RecipeForm.enabled (RecipeForm.ClickRemoveIngredient index) d = false)
    /\ (forall es d',
           ingredients d <> [] ->
           RecipeForm.exec es d = Some d' ->
           ingredients d' <> [])
    /\ (forall recipe, ingredients (RecipeForm.mount recipe) <> []).
Proof.
  intros d. split; [|split].
  - intros H index. simpl. now rewrite H.
  - intros es. revert d. induction es as [|e es IH]; intros d d' Hd H; simpl in H.
    + now injection H as <-.
    + destruct (RecipeForm.enabled e d) eqn:He; [|discriminate].
      apply (IH _ _ (update_keeps_a_slot e d He Hd) H).
  - apply mount_has_a_slot.
Qed.

Lemma ingredients_never_empty_witness :
  RecipeForm.enabled (RecipeForm.ClickRemoveIngredient 0) RecipeForm.initialFormData
  = false
  /\ ingredients
       (RecipeForm.update (RecipeForm.ClickRemoveIngredient 1)
          (RecipeForm.update RecipeForm.ClickAddIngredient RecipeForm.initialFormData))
     <> [].
Proof.
  destruct (ingredients_never_empty RecipeForm.initialFormData) as (H1 & H2 & _).
  split.
  - apply H1. reflexivity.
  - apply (H2 [RecipeForm.ClickAddIngredient; RecipeForm.ClickRemoveIngredient 1]).
    + discriminate.
    + reflexivity.
Defined.

(** C10: a form mounted without a recipe starts with an empty title, empty
    instructions, one blank ingredient slot, difficulty medium, cuisine
    other, no preparation or cooking time and 4 servings; submitted after
    any editing that does not touch the servings input, it carries 4
    servings. *)
Theorem new_draft_defaults :
  let d0 := RecipeForm.mount None in
  title d0 = "" /\ instructions d0 = "" /\ ingredients d0 = [""]
  /\ difficulty d0 = medium /\ cuisine d0 = other
  /\ prep_time d0 = None /\ cook_time d0 = None
  /\ servings d0 = Some (JS.Int 4)
  /\ (forall es d,
         Forall (fun e => forall v, e <> RecipeForm.ChangeServings v) es ->
         RecipeForm.exec es d0 = Some d ->
         servings (RecipeForm.handleSubmit d) = Some (JS.Int 4)).
Proof.
  cbv zeta. repeat (split; [reflexivity|]).
  intros es d Hes H. change (servings d = servings (RecipeForm.mount None)).
  revert H. generalize (RecipeForm.mount None).
  induction es as [|e es IH]; intros d0 H; simpl in H.
  - now injection H as <-.
  - destruct (RecipeForm.enabled e d0); [|discriminate].
    inversion Hes; subst. rewrite (IH H3 _ H). now apply update_servings.
Qed.

Lemma new_draft_defaults_witness :
  servings
    (RecipeForm.handleSubmit
       (RecipeForm.update (RecipeForm.ChangeInstructions "Toast the bread")
          (RecipeForm.update (RecipeForm.ChangeTitle "Toast")
             (RecipeForm.mount None))))
  = Some (JS.Int 4).
Proof.
  destruct new_draft_defaults as (_ & _ & _ & _ & _ & _ & _ & _ & H).
  apply (H [RecipeForm.ChangeTitle "Toast";
            RecipeForm.ChangeInstructions "Toast the bread"]).
  - repeat constructor; discriminate.
  - reflexivity.
Defined.

(** ** The page *)

Section DashboardFacts.

Import Dashboard.

(** Unfolds a handler down to the record and splits on what it reads. *)
Ltac handler :=
  repeat match goal with
         | |- context [match ?x with _ => _ end] => destruct x eqn:?
         | H : context [match ?x with _ => _ end] |- _ => destruct x eqn:?
         end;
  simpl in *.

Lemma exec_app es1 : forall es2 st,
  exec (es1 ++ es2) st =
  match exec es1 st with Some st1 => exec es2 st1 | None => None end.
Proof.
  induction es1 as [|e es1 IH]; intros es2 st; simpl; [reflexivity|].
  destruct (enabled e st); [apply IH | reflexivity].
Qed.

Lemma exec_snoc es e st st' :
  exec (es ++ [e]) st = Some st' ->
  exists st1, exec es st = Some st1 /\ enabled e st1 = true /\ st' = handle e st1.
Proof.
  rewrite exec_app. destruct (exec es st) as [st1|]; [|discriminate].
  simpl. destruct (enabled e st1) eqn:E; [|discriminate].
  intros H. injection H as <-. now exists st1.
Qed.

(** The collection after an event: as before, or the list a load has
    just brought. *)
Lemma handle_recipes e st :
  recipes (handle e st) = recipes st
  \/ exists k r,
       e = Settle k r /\ nth_error (inflight st) k = Some InFetch
       /\ error r = None
       /\ recipes (handle e st) = match data r with Some d => d | None => [] end.
Proof.
  destruct e; simpl; try (left; reflexivity).
  - left. unfold effect. handler; reflexivity.
  - left. handler; reflexivity.
  - left. handler; reflexivity.
  - left. unfold handleSaveRecipe. handler; reflexivity.
  - left. unfold handleDeleteRecipe. handler; reflexivity.
  - destruct (nth_error (inflight st) k) as [w|] eqn:Hk; [|left; reflexivity].
    destruct w; unfold fetchRecipes_resume, handleSaveRecipe_resume,
      handleDeleteRecipe_resume; destruct (error r) eqn:He; simpl;
      try (left; reflexivity).
    right. exists k, r. auto.
Qed.

(** The flag after an event: as before, or off because a load has just
    completed. *)
Lemma handle_loading e st :
  loading (handle e st) = loading st
  \/ exists k r,
       e = Settle k r /\ nth_error (inflight st) k = Some InFetch
       /\ loading (handle e st) = false.
Proof.
  destruct e; simpl; try (left; reflexivity).
  - left. unfold effect. handler; reflexivity.
  - left. handler; reflexivity.
  - left. handler; reflexivity.
  - left. unfold handleSaveRecipe. handler; reflexivity.
  - left. unfold handleDeleteRecipe. handler; reflexivity.
  - destruct (nth_error (inflight st) k) as [w|] eqn:Hk; [|left; reflexivity].
    destruct w; unfold fetchRecipes_resume, handleSaveRecipe_resume,
      handleDeleteRecipe_resume; destruct (error r) eqn:He; simpl;
      try (left; reflexivity);
      right; exists k, r; auto.
Qed.

(** A delete request leaves only on the action button of the dialog, for
    the id the page holds. *)
Lemma handle_sent_delete e st target :
  In (Delete target) (sent (handle e st)) ->
  In (Delete target) (sent st)
  \/ (e = DialogAction /\ recipeToDelete st = Some target).
Proof.
  destruct e; simpl; auto.
  - unfold effect. handler; auto.
    rewrite in_app_iff. simpl. intuition discriminate.
  - handler; auto.
  - handler; auto.
  - unfold handleSaveRecipe. handler; auto;
      rewrite in_app_iff; simpl; intuition discriminate.
  - unfold handleDeleteRecipe. handler; auto.
    rewrite in_app_iff. simpl. intros [H|[H|[]]]; auto.
    injection H as ->. auto.
  - destruct (nth_error (inflight st) k) as [w|]; auto.
    destruct w; unfold fetchRecipes_resume, handleSaveRecipe_resume,
      handleDeleteRecipe_resume; destruct (error r); simpl; auto;
      rewrite in_app_iff; simpl; intuition discriminate.
Qed.

(** The page holds an id to delete only from the delete button of a card
    that shows a recipe of that id. *)
Lemma handle_recipeToDelete e st target :
  recipeToDelete (handle e st) = Some target ->
  recipeToDelete st = Some target
  \/ exists i recipe,
       e = CardDelete i /\ nth_error (visible st) i = Some recipe
       /\ id recipe = target.
Proof.
  destruct e; simpl; auto.
  - unfold effect. handler; intuition congruence.
  - handler; intuition congruence.
  - destruct (nth_error (visible st) i) as [recipe|] eqn:Hi; simpl; auto.
    intros H. injection H as <-. right. now exists i, recipe.
  - unfold handleSaveRecipe. handler; intuition congruence.
  - unfold handleDeleteRecipe. handler; intuition congruence.
  - destruct (nth_error (inflight st) k) as [w|]; auto.
    destruct w; unfold fetchRecipes_resume, handleSaveRecipe_resume,
      handleDeleteRecipe_resume; destruct (error r); simpl; auto; discriminate.
Qed.

Lemma Requested_snoc st0 es e target :
  Requested st0 es target -> Requested st0 (es ++ [e]) target.
Proof.
  intros (es1 & es2 & i & st1 & recipe & -> & H).
  exists es1, (es2 ++ [e])%list, i, st1, recipe.
  now rewrite <- app_assoc.
Qed.

Lemma Confirmed_snoc st0 es e target :
  Confirmed st0 es target -> Confirmed st0 (es ++ [e]) target.
Proof.
  intros (es1 & es2 & st1 & -> & H).
  exists es1, (es2 ++ [e])%list, st1.
  now rewrite <- app_assoc.
Qed.

(** Along a session every delete request sent was confirmed, and the id
    the page holds was requested. *)
Lemma session_deletes u es : forall st,
  exec es (mounted u) = Some st ->
  (forall target, In (Delete target) (sent st) -> Confirmed (mounted u) es target)
  /\ (forall target, recipeToDelete st = Some target ->
                     Requested (mounted u) es target).
Proof.
  induction es as [|e es IH] using rev_ind; intros st H.
  - simpl in H. injection H as <-. split; intros target.
    + unfold mounted, effect. destruct u; simpl; intuition discriminate.
    + unfold mounted, effect. destruct u; simpl; discriminate.
  - apply exec_snoc in H as (st1 & H1 & He & ->).
    destruct (IH _ H1) as [IHs IHr]. split; intros target Ht.
    + apply handle_sent_delete in Ht as [Ht|[-> Ht]].
      * apply Confirmed_snoc. auto.
      * exists es, [], st1. repeat split; auto.
        simpl in He. now apply andb_true_iff in He.
    + apply handle_recipeToDelete in Ht as [Ht|(i & recipe & -> & Hi & Hid)].
      * apply Requested_snoc. auto.
      * exists es, [], i, st1, recipe. auto.
Qed.

End DashboardFacts.

(** C3 (the code departs from the claim): a draft with a title and
    instructions whose only ingredient slot is blank is submitted: the page
    sends the insert, with no ingredient at all. *)
Theorem submit_without_ingredient_is_dispatched :
  option_map Dashboard.sent
    (Dashboard.exec
       [Dashboard.Settle 0 answer_done;
        Dashboard.ClickAdd;
        Dashboard.Form (RecipeForm.ChangeTitle "Toast");
        Dashboard.Form (RecipeForm.ChangeInstructions "Toast the bread");
        Dashboard.Form RecipeForm.ClickSubmit]
       (Dashboard.mounted (Some cook)))
  = Some [Dashboard.Select;
          Dashboard.Insert
            (mkData "Toast" [] "Toast the bread" medium other None None
                    (Some (JS.Int 4)))
            "u1"].
Proof. reflexivity. Qed.

(** C4: when the remote store answers a load, a create, an update or a
    remove with an error, the handler runs to its end, the collection is
    what it was, no further request leaves, and one notification is added
    that carries the message of the error. *)
Theorem failure_keeps_collection_and_notifies :
  forall (st : Dashboard.State) (k : nat) (waiting : Dashboard.Awaiting)
         (r : Dashboard.Response) (message : string),
    nth_error (Dashboard.inflight st) k = Some waiting ->
    Dashboard.error r = Some message ->
    let st' := Dashboard.handle (Dashboard.Settle k r) st in
    Dashboard.recipes st' = Dashboard.recipes st
    /\ Dashboard.sent st' = Dashboard.sent st
    /\ Dashboard.inflight st' = Dashboard.without k (Dashboard.inflight st)
    /\ exists t,
         Dashboard.toasts st' = (Dashboard.toasts st ++ [t])%list
         /\ Dashboard.description t = Some message
         /\ Dashboard.destructive t = true.
Proof.
  intros st k waiting r message Hk He. simpl. rewrite Hk.
  destruct waiting;
    unfold Dashboard.fetchRecipes_resume, Dashboard.handleSaveRecipe_resume,
      Dashboard.handleDeleteRecipe_resume;
    rewrite He; simpl; repeat split; eexists; repeat split.
Qed.

Lemma failure_keeps_collection_and_notifies_witness :
  let st := Dashboard.handle (Dashboard.Settle 0 answer_tacos)
                             (Dashboard.mounted (Some cook)) in
  let st' := Dashboard.handle (Dashboard.Settle 0 answer_failed)
                              (Dashboard.fetchRecipes st) in
  Dashboard.recipes st' = [tacos]
  /\ exists t, Dashboard.toasts st' = [t]
               /\ Dashboard.description t = Some "connection lost".
Proof.
  destruct (failure_keeps_collection_and_notifies
              (Dashboard.fetchRecipes
                 (Dashboard.handle (Dashboard.Settle 0 answer_tacos)
                                   (Dashboard.mounted (Some cook))))
              0 Dashboard.InFetch answer_failed "connection lost"
              eq_refl eq_refl) as (Hr & _ & _ & t & Ht & Hd & _).
  split; [exact Hr|]. exists t. split; [exact Ht | exact Hd].
Defined.

(** C5: when the remote store answers a create, an update or a remove
    without an error, a load is started; when it answers a load without an
    error, the collection is replaced as a whole by the list of that answer
    (by the empty list when the answer has none); and whatever else happens
    to the page, the collection stays as it is. *)
Theorem collection_changes_only_by_reload :
  (forall (st : Dashboard.State) (k : nat) (waiting : Dashboard.Awaiting)
          (r : Dashboard.Response),
      nth_error (Dashboard.inflight st) k = Some waiting ->
      waiting <> Dashboard.InFetch ->
      Dashboard.error r = None ->
      let st' := Dashboard.handle (Dashboard.Settle k r) st in
      Dashboard.sent st' = (Dashboard.sent st ++ [Dashboard.Select])%list
      /\ Dashboard.inflight st' =
         (Dashboard.without k (Dashboard.inflight st) ++ [Dashboard.InFetch])%list)
  /\ (forall (st : Dashboard.State) (k : nat) (r : Dashboard.Response),
         nth_error (Dashboard.inflight st) k = Some Dashboard.InFetch ->
         Dashboard.error r = None ->
         Dashboard.recipes (Dashboard.handle (Dashboard.Settle k r) st) =
         match Dashboard.data r with Some d => d | None => [] end)
  /\ (forall (e : Dashboard.Event) (st : Dashboard.State),
         Dashboard.recipes (Dashboard.handle e st) = Dashboard.recipes st
         \/ exists k r,
              e = Dashboard.Settle k r
              /\ nth_error (Dashboard.inflight st) k = Some Dashboard.InFetch
              /\ Dashboard.error r = None
              /\ Dashboard.recipes (Dashboard.handle e st) =
                 match Dashboard.data r with Some d => d | None => [] end).
Proof.
  split; [|split].
  - intros st k waiting r Hk Hw He. simpl. rewrite Hk.
    destruct waiting; [congruence| |];
      unfold Dashboard.handleSaveRecipe_resume, Dashboard.handleDeleteRecipe_resume;
      rewrite He; simpl; split; reflexivity.
  - intros st k r Hk He. simpl. rewrite Hk.
    unfold Dashboard.fetchRecipes_resume. rewrite He. reflexivity.
  - apply handle_recipes.
Qed.

Lemma collection_changes_only_by_reload_witness :
  let st := Dashboard.handle Dashboard.DialogAction
              (Dashboard.handle (Dashboard.CardDelete 0)
                 (Dashboard.handle (Dashboard.Settle 0 answer_tacos)
                    (Dashboard.mounted (Some cook)))) in
  Dashboard.sent (Dashboard.handle (Dashboard.Settle 0 answer_done) st) =
  [Dashboard.Select; Dashboard.Delete "r1"; Dashboard.Select]
  /\ Dashboard.recipes
       (Dashboard.handle (Dashboard.Settle 0 answer_tacos)
                         (Dashboard.mounted (Some cook))) = [tacos]
  /\ Dashboard.recipes
       (Dashboard.handle (Dashboard.Settle 0 answer_done)
          (Dashboard.handle (Dashboard.Settle 0 answer_done) st)) = [].
Proof.
  cbv zeta. destruct collection_changes_only_by_reload as (H1 & H2 & _).
  split; [|split].
  - destruct (H1 (Dashboard.handle Dashboard.DialogAction
                    (Dashboard.handle (Dashboard.CardDelete 0)
                       (Dashboard.handle (Dashboard.Settle 0 answer_tacos)
                          (Dashboard.mounted (Some cook)))))
                 0 Dashboard.InDelete answer_done eq_refl
                 ltac:(discriminate) eq_refl) as [H _].
    exact H.
  - apply (H2 (Dashboard.mounted (Some cook)) 0 answer_tacos eq_refl eq_refl).
  - apply (H2 (Dashboard.handle (Dashboard.Settle 0 answer_done)
                 (Dashboard.handle Dashboard.DialogAction
                    (Dashboard.handle (Dashboard.CardDelete 0)
                       (Dashboard.handle (Dashboard.Settle 0 answer_tacos)
                          (Dashboard.mounted (Some cook))))))
              0 answer_done eq_refl eq_refl).
Defined.

(** The hook that holds the id keeps its value when the dialog is
    cancelled; with the dialog closed that value is not pending: the action
    button is gone, and the next delete button sets the hook anew. *)
Lemma cancel_keeps_pending_id :
  option_map Dashboard.recipeToDelete
    (Dashboard.exec
       [Dashboard.Settle 0 answer_tacos;
        Dashboard.CardDelete 0;
        Dashboard.DialogCancel]
       (Dashboard.mounted (Some cook)))
  = Some (Some "r1").
Proof. reflexivity. Qed.

(** C8: along any session a delete request for an id has left only on the
    action button of the open dialog while that id was pending, which the
    delete button of a card of that recipe had set; cancelling the dialog
    leaves the collection as it is, sends nothing, and leaves no id
    pending: the dialog is closed and its action button is gone; the delete
    button of a card makes the id of its recipe the pending one, whatever
    the hook held before; and the hook itself is cleared only when a delete
    request has been answered. *)
Theorem delete_only_after_confirmation :
  (forall (u : option Dashboard.User) (es : list Dashboard.Event)
          (st : Dashboard.State) (target : string),
      Dashboard.exec es (Dashboard.mounted u) = Some st ->
      In (Dashboard.Delete target) (Dashboard.sent st) ->
      Confirmed (Dashboard.mounted u) es target)
  /\ (forall (st0 : Dashboard.State) (es : list Dashboard.Event)
             (target : string),
         Confirmed st0 es target ->
         exists es1 es2 st1,
           es = (es1 ++ Dashboard.DialogAction :: es2)%list
           /\ Dashboard.exec es1 st0 = Some st1
           /\ pendingDelete st1 = Some target)
  /\ (forall st : Dashboard.State,
         let st' := Dashboard.handle Dashboard.DialogCancel st in
         Dashboard.recipes st' = Dashboard.recipes st
         /\ Dashboard.sent st' = Dashboard.sent st
         /\ pendingDelete st' = None
         /\ Dashboard.enabled Dashboard.DialogAction st' = false)
  /\ (forall (st : Dashboard.State) (i : nat) (r : Recipe),
         nth_error (Dashboard.visible st) i = Some r ->
         pendingDelete (Dashboard.handle (Dashboard.CardDelete i) st)
         = Some (id r))
  /\ (forall (e : Dashboard.Event) (st : Dashboard.State),
         Dashboard.recipeToDelete st <> None ->
         Dashboard.recipeToDelete (Dashboard.handle e st) = None ->
         exists k r,
           e = Dashboard.Settle k r
           /\ nth_error (Dashboard.inflight st) k = Some Dashboard.InDelete).
Proof.
  split; [|split; [|split; [|split]]].
  - intros u es st target H. apply (session_deletes u es st H).
  - intros st0 es target (es1 & es2 & st1 & E & H1 & Hr & Ho & _).
    exists es1, es2, st1. repeat split; auto.
    unfold pendingDelete. now rewrite Ho.
  - intros st. simpl. unfold pendingDelete. simpl.
    repeat split; auto. apply andb_false_r.
  - intros st i r Hi. unfold pendingDelete. simpl. rewrite Hi. reflexivity.
  - intros e st Hs. destruct e; simpl; try congruence.
    + unfold Dashboard.effect. simpl. destruct u; simpl; congruence.
    + destruct (nth_error (Dashboard.visible st) i); simpl; congruence.
    + destruct (nth_error (Dashboard.visible st) i); simpl; congruence.
    + destruct (RecipeForm.emit e (Dashboard.form st)) as [[d|]|]; simpl;
        try congruence.
      unfold Dashboard.handleSaveRecipe. simpl.
      destruct (Dashboard.editingRecipe st), (Dashboard.user st); simpl; congruence.
    + unfold Dashboard.handleDeleteRecipe.
      destruct (Dashboard.recipeToDelete st) as [t|] eqn:E; [|congruence].
      destruct (t =? ""); simpl; congruence.
    + destruct (nth_error (Dashboard.inflight st) k) as [w|] eqn:Hk; [|congruence].
      destruct w.
      * unfold Dashboard.fetchRecipes_resume.
        destruct (Dashboard.error r); simpl; congruence.
      * unfold Dashboard.handleSaveRecipe_resume.
        destruct (Dashboard.error r); simpl; congruence.
      * intros _. now exists k, r.
Qed.

Lemma delete_only_after_confirmation_witness :
  Confirmed (Dashboard.mounted (Some cook))
            [Dashboard.Settle 0 answer_tacos;
             Dashboard.CardDelete 0;
             Dashboard.DialogAction]
            "r1"
  /\ pendingDelete
       (Dashboard.handle (Dashboard.CardDelete 0)
          (Dashboard.handle (Dashboard.Settle 0 answer_tacos)
             (Dashboard.mounted (Some cook))))
     = Some "r1"
  /\ exists k r,
       Dashboard.Settle 0 answer_done = Dashboard.Settle k r
       /\ nth_error
            (Dashboard.inflight
               (Dashboard.handle Dashboard.DialogAction
                  (Dashboard.handle (Dashboard.CardDelete 0)
                     (Dashboard.handle (Dashboard.Settle 0 answer_tacos)
                        (Dashboard.mounted (Some cook)))))) k
          = Some Dashboard.InDelete.
Proof.
  destruct delete_only_after_confirmation as (H1 & _ & _ & H4 & H5).
  split; [|split].
  - apply (H1 (Some cook)
              [Dashboard.Settle 0 answer_tacos;
               Dashboard.CardDelete 0;
               Dashboard.DialogAction]
              (Dashboard.handle Dashboard.DialogAction
                 (Dashboard.handle (Dashboard.CardDelete 0)
                    (Dashboard.handle (Dashboard.Settle 0 answer_tacos)
                       (Dashboard.mounted (Some cook)))))
              "r1").
    + vm_compute. reflexivity.
    + vm_compute. right. left. reflexivity.
  - apply (H4 (Dashboard.handle (Dashboard.Settle 0 answer_tacos)
                 (Dashboard.mounted (Some cook))) 0 tacos).
    reflexivity.
  - apply H5.
    + vm_compute. discriminate.
    + vm_compute. reflexivity.
Defined.

(** C9, as the claim states it, fails: the load that follows a confirmed
    and answered delete is in flight while the flag is off. *)
Lemma reload_in_flight_with_loading_off :
  option_map (fun st => (Dashboard.inflight st, Dashboard.loading st))
    (Dashboard.exec
       [Dashboard.Settle 0 answer_tacos;
        Dashboard.CardDelete 0;
        Dashboard.DialogAction;
        Dashboard.Settle 0 answer_done]
       (Dashboard.mounted (Some cook)))
  = Some ([Dashboard.InFetch], false).
Proof. vm_compute. reflexivity. Qed.

(** C9, amended: the flag is on at the first render and stays on as long as
    no request has been answered; the answer to a load, with or without an
    error, turns it off; nothing else changes it, so nothing turns it on
    again; and once a load has been answered the flag is off for the rest
    of the session, whatever loads are started later. *)
Theorem loading_until_first_load :
  (forall u : option Dashboard.User,
      Dashboard.loading (Dashboard.initial u) = true
      /\ Dashboard.loading (Dashboard.mounted u) = true)
  /\ (forall (u : option Dashboard.User) (es : list Dashboard.Event)
             (st : Dashboard.State),
         Dashboard.exec es (Dashboard.mounted u) = Some st ->
         (forall k r, ~ In (Dashboard.Settle k r) es) ->
         Dashboard.loading st = true)
  /\ (forall (st : Dashboard.State) (k : nat) (r : Dashboard.Response),
         nth_error (Dashboard.inflight st) k = Some Dashboard.InFetch ->
         Dashboard.loading (Dashboard.handle (Dashboard.Settle k r) st) = false)
  /\ (forall (e : Dashboard.Event) (st : Dashboard.State),
         Dashboard.loading (Dashboard.handle e st) = Dashboard.loading st
         \/ exists k r,
              e = Dashboard.Settle k r
              /\ nth_error (Dashboard.inflight st) k = Some Dashboard.InFetch
              /\ Dashboard.loading (Dashboard.handle e st) = false)
  /\ (forall (u : option Dashboard.User) (es1 es2 : list Dashboard.Event)
             (k : nat) (r : Dashboard.Response) (st1 st : Dashboard.State),
         Dashboard.exec es1 (Dashboard.mounted u) = Some st1 ->
         nth_error (Dashboard.inflight st1) k = Some Dashboard.InFetch ->
         Dashboard.exec (es1 ++ Dashboard.Settle k r :: es2)
                        (Dashboard.mounted u) = Some st ->
         Dashboard.loading st = false).
Proof.
  assert (M : forall u, Dashboard.loading (Dashboard.mounted u) = true).
  { intros [u|]; reflexivity. }
  assert (F : forall (st : Dashboard.State) (k : nat) (r : Dashboard.Response),
             nth_error (Dashboard.inflight st) k = Some Dashboard.InFetch ->
             Dashboard.loading (Dashboard.handle (Dashboard.Settle k r) st)
             = false).
  { intros st k r Hk. simpl. rewrite Hk.
    unfold Dashboard.fetchRecipes_resume.
    destruct (Dashboard.error r); reflexivity. }
  split; [|split; [|split; [|split]]].
  - intros u. split; [reflexivity | apply M].
  - intros u es. generalize (M u). generalize (Dashboard.mounted u).
    induction es as [|e es IH]; intros st0 H0 st H Hes; simpl in H.
    + now injection H as <-.
    + destruct (Dashboard.enabled e st0); [|discriminate].
      apply (IH (Dashboard.handle e st0)); auto.
      * destruct (handle_loading e st0) as [->|(k & r & -> & _)]; [exact H0|].
        elim (Hes k r). now left.
      * intros k r Hin. apply (Hes k r). now right.
  - exact F.
  - apply handle_loading.
  - intros u es1 es2 k r st1 st H1 Hk H. rewrite exec_app, H1 in H.
    cbn [Dashboard.exec] in H.
    destruct (Dashboard.enabled (Dashboard.Settle k r) st1); [|discriminate H].
    revert H. generalize (F st1 k r Hk).
    generalize (Dashboard.handle (Dashboard.Settle k r) st1).
    induction es2 as [|e es2 IH]; intros st0 H0 H; simpl in H.
    + now injection H as <-.
    + destruct (Dashboard.enabled e st0); [|discriminate H].
      apply (IH (Dashboard.handle e st0)); [|exact H].
      destruct (handle_loading e st0) as [->|(k' & r' & _ & _ & E)]; auto.
Qed.

Lemma loading_until_first_load_witness :
  Dashboard.loading
    (Dashboard.handle (Dashboard.Settle 0 answer_failed)
                      (Dashboard.mounted (Some cook))) = false
  /\ Dashboard.loading
       (Dashboard.handle Dashboard.ClickAdd (Dashboard.mounted (Some cook)))
     = true
  /\ Dashboard.loading
       (Dashboard.handle Dashboard.DialogAction
          (Dashboard.handle (Dashboard.CardDelete 0)
             (Dashboard.handle (Dashboard.Settle 0 answer_tacos)
                (Dashboard.mounted (Some cook)))))
     = false.
Proof.
  destruct loading_until_first_load as (_ & H2 & H3 & _ & H5).
  split; [|split].
  - apply H3. reflexivity.
  - apply (H2 (Some cook) [Dashboard.ClickAdd]).
    + reflexivity.
    + intros k r [H|[]]. discriminate.
  - apply (H5 (Some cook) []
              [Dashboard.CardDelete 0; Dashboard.DialogAction]
              0 answer_tacos (Dashboard.mounted (Some cook))).
    + reflexivity.
    + reflexivity.
    + vm_compute. reflexivity.
Defined.

(** ** More on the form: the ingredient editors *)

Section IngredientEditors.

Import RecipeForm.

Lemma nth_error_map_from {A B} (f : A -> nat -> B) : forall l k j,
  nth_error (JS.map_from f k l) j =
  option_map (fun x => f x (k + j)%nat) (nth_error l j).
Proof.
  induction l as [|x l IH]; intros k j; simpl.
  - now destruct j.
  - destruct j as [|j]; simpl.
    + now rewrite Nat.add_0_r.
    + rewrite IH. now rewrite Nat.add_succ_r.
Qed.

Lemma filter_from_above {A} index : forall (l : list A) k,
  (index < k)%nat ->
  JS.filter_from (fun _ i => negb (i =? index)%nat) k l = l.
Proof.
  induction l as [|x l IH]; intros k Hk; simpl; [reflexivity|].
  destruct (Nat.eqb_spec k index); [lia|]. simpl. rewrite IH; [reflexivity|lia].
Qed.

Lemma filter_from_cut {A} index : forall (l : list A) k,
  (k <= index)%nat ->
  JS.filter_from (fun _ i => negb (i =? index)%nat) k l =
  (firstn (index - k) l ++ skipn (S (index - k)) l)%list.
Proof.
  induction l as [|x l IH]; intros k Hk; simpl.
  - now destruct (index - k)%nat.
  - destruct (Nat.eqb_spec k index) as [->|Hne]; simpl.
    + rewrite Nat.sub_diag. simpl. apply filter_from_above. lia.
    + rewrite IH by lia.
      replace (index - k)%nat with (S (index - S k)) by lia. reflexivity.
Qed.

Lemma filter_twice {A} (f : A -> bool) l : filter f (filter f l) = filter f l.
Proof.
  induction l as [|x l IH]; simpl; [reflexivity|].
  destruct (f x) eqn:E; simpl; [rewrite E; now f_equal | exact IH].
Qed.

Lemma cut_last {A} (l : list A) x :
  (firstn (List.length l) (l ++ [x]) ++ skipn (S (List.length l)) (l ++ [x]))%list
  = l.
Proof.
  rewrite firstn_app, Nat.sub_diag, firstn_all, skipn_all2.
  - simpl. now rewrite !app_nil_r.
  - rewrite length_app. simpl. lia.
Qed.

Lemma cut_middle {A} (l1 l2 : list A) x :
  (firstn (List.length l1) (l1 ++ x :: l2)
   ++ skipn (S (List.length l1)) (l1 ++ x :: l2))%list
  = (l1 ++ l2)%list.
Proof.
  induction l1 as [|y l1 IH]; simpl; [reflexivity|].
  f_equal. exact IH.
Qed.

Lemma data_eq (a b : RecipeData) :
  title a = title b -> ingredients a = ingredients b ->
  instructions a = instructions b -> difficulty a = difficulty b ->
  cuisine a = cuisine b -> prep_time a = prep_time b ->
  cook_time a = cook_time b -> servings a = servings b -> a = b.
Proof. destruct a, b; simpl; intros; subst; reflexivity. Qed.

End IngredientEditors.

(** X1: [updateIngredient] replaces the entry at [index] and nothing else:
    at every position the new sequence has an entry exactly when the old
    one has, it is [value] at [index] and the old entry elsewhere; so the
    length and the order stay, and an index beyond the end changes
    nothing. *)
Theorem updateIngredient_replaces_in_place :
  forall (index : nat) (value : string) (d : RecipeData),
    (forall j,
        nth_error (ingredients (RecipeForm.updateIngredient index value d)) j =
        match nth_error (ingredients d) j with
        | Some old => Some (if (j =? index)%nat then value else old)
        | None => None
        end)
    /\ List.length (ingredients (RecipeForm.updateIngredient index value d))
       = List.length (ingredients d)
    /\ ((List.length (ingredients d) <= index)%nat ->
        RecipeForm.updateIngredient index value d = d).
Proof.
  intros index value d. split; [|split].
  - intros j. simpl. unfold JS.map_i. rewrite nth_error_map_from. simpl.
    now destruct (nth_error (ingredients d) j).
  - simpl. apply length_map_from.
  - intros H. apply data_eq; try reflexivity. simpl. unfold JS.map_i.
    apply nth_error_ext. intros j. rewrite nth_error_map_from. simpl.
    destruct (nth_error (ingredients d) j) as [x|] eqn:E; [|reflexivity].
    simpl. assert (j < List.length (ingredients d))%nat
      by (apply nth_error_Some; congruence).
    destruct (Nat.eqb_spec j index); [lia | reflexivity].
Qed.

Lemma updateIngredient_replaces_in_place_witness :
  RecipeForm.updateIngredient 5 "Salt" RecipeForm.initialFormData
  = RecipeForm.initialFormData.
Proof.
  apply (proj2 (proj2 (updateIngredient_replaces_in_place
                         5 "Salt" RecipeForm.initialFormData))).
  simpl. lia.
Defined.

(** X2: [removeIngredient] takes out the entry at [index] and keeps the
    others in their order; an index beyond the end removes nothing, and an
    index within the sequence makes it one shorter. *)
Theorem removeIngredient_cuts_one :
  forall (index : nat) (d : RecipeData),
    ingredients (RecipeForm.removeIngredient index d)
    = (firstn index (ingredients d) ++ skipn (S index) (ingredients d))%list
    /\ ((List.length (ingredients d) <= index)%nat ->
        RecipeForm.removeIngredient index d = d)
    /\ ((index < List.length (ingredients d))%nat ->
        S (List.length (ingredients (RecipeForm.removeIngredient index d)))
        = List.length (ingredients d)).
Proof.
  intros index d.
  assert (E : ingredients (RecipeForm.removeIngredient index d)
              = (firstn index (ingredients d)
                 ++ skipn (S index) (ingredients d))%list).
  { simpl. unfold JS.filter_i. rewrite filter_from_cut by lia.
    now rewrite Nat.sub_0_r. }
  split; [exact E|]. split.
  - intros H. apply data_eq; try reflexivity. rewrite E.
    rewrite firstn_all2 by lia. rewrite skipn_all2 by lia. apply app_nil_r.
  - intros H. rewrite E, length_app, length_firstn, length_skipn. lia.
Qed.

Lemma removeIngredient_cuts_one_witness :
  RecipeForm.removeIngredient 3 RecipeForm.initialFormData
  = RecipeForm.initialFormData
  /\ S (List.length
          (ingredients
             (RecipeForm.removeIngredient 0
                (RecipeForm.addIngredient RecipeForm.initialFormData))))
     = 2%nat.
Proof.
  split.
  - apply (proj1 (proj2 (removeIngredient_cuts_one 3 RecipeForm.initialFormData))).
    simpl. lia.
  - apply (proj2 (proj2 (removeIngredient_cuts_one 0
             (RecipeForm.addIngredient RecipeForm.initialFormData)))).
    simpl. lia.
Defined.

(** X3: a slot added and then removed leaves the draft as it was, and a
    slot added and then typed into puts the text at the end of the
    sequence. *)
Theorem added_slot_is_last :
  forall (d : RecipeData) (value : string),
    RecipeForm.removeIngredient (List.length (ingredients d))
                                (RecipeForm.addIngredient d) = d
    /\ ingredients
         (RecipeForm.updateIngredient (List.length (ingredients d)) value
                                      (RecipeForm.addIngredient d))
       = (ingredients d ++ [value])%list.
Proof.
  intros d value. split.
  - apply data_eq; try reflexivity. simpl. unfold JS.filter_i.
    rewrite filter_from_cut by lia. rewrite Nat.sub_0_r. apply cut_last.
  - simpl. unfold JS.map_i. apply nth_error_ext. intros j.
    rewrite nth_error_map_from. simpl.
    destruct (Nat.lt_trichotomy j (List.length (ingredients d))) as [H|[->|H]].
    + rewrite !nth_error_app1 by lia.
      destruct (nth_error (ingredients d) j) as [x|] eqn:E; simpl.
      * destruct (Nat.eqb_spec j (List.length (ingredients d))); [lia|reflexivity].
      * reflexivity.
    + rewrite !nth_error_app2 by lia. rewrite Nat.sub_diag. simpl.
      now rewrite Nat.eqb_refl.
    + rewrite !nth_error_app2 by lia.
      destruct (j - List.length (ingredients d))%nat as [|m] eqn:E; [lia|].
      simpl. now destruct m.
Qed.

(** X4: what [handleSubmit] hands over has no ingredient that is empty
    after trimming, and normalising it again changes nothing. *)
Theorem handleSubmit_output_is_clean :
  forall d : RecipeData,
    Forall (fun s => JS.trim s <> "") (ingredients (RecipeForm.handleSubmit d))
    /\ RecipeForm.handleSubmit (RecipeForm.handleSubmit d)
       = RecipeForm.handleSubmit d.
Proof.
  intros d. split.
  - apply Forall_forall. intros s Hs. simpl in Hs.
    apply filter_In in Hs as [_ Hs].
    apply negb_true_iff in Hs. now apply str_eqb_neq.
  - apply data_eq; try reflexivity. simpl. apply filter_twice.
Qed.

(** X5: blank slots do not show in the submission: a draft with a slot
    added, or with a blank entry removed, submits what it submitted
    before. *)
Theorem blank_slots_do_not_reach_submission :
  forall d : RecipeData,
    RecipeForm.handleSubmit (RecipeForm.addIngredient d)
    = RecipeForm.handleSubmit d
    /\ (forall index s,
           nth_error (ingredients d) index = Some s ->
           JS.trim s = "" ->
           RecipeForm.handleSubmit (RecipeForm.removeIngredient index d)
           = RecipeForm.handleSubmit d).
Proof.
  intros d. split.
  - apply data_eq; try reflexivity. simpl.
    rewrite filter_app. simpl. apply app_nil_r.
  - intros index s Hn Hs. apply data_eq; try reflexivity.
    change (filter (fun i => negb (JS.trim i =? ""))
                   (ingredients (RecipeForm.removeIngredient index d))
            = filter (fun i => negb (JS.trim i =? "")) (ingredients d)).
    simpl. unfold JS.filter_i. rewrite filter_from_cut by lia.
    rewrite Nat.sub_0_r.
    destruct (nth_error_split _ _ Hn) as (l1 & l2 & E & L).
    rewrite E, <- L, cut_middle, !filter_app. simpl. now rewrite Hs.
Qed.

Lemma blank_slots_do_not_reach_submission_witness :
  let d := RecipeForm.with_ingredients ["Salt"; "  "; "Pepper"]
                                       RecipeForm.initialFormData in
  RecipeForm.handleSubmit (RecipeForm.removeIngredient 1 d)
  = RecipeForm.handleSubmit d.
Proof.
  cbv zeta.
  apply (proj2 (blank_slots_do_not_reach_submission
                  (RecipeForm.with_ingredients ["Salt"; "  "; "Pepper"]
                                               RecipeForm.initialFormData))
               1 "  ").
  - reflexivity.
  - reflexivity.
Defined.

(** X6: a recipe opened for editing and submitted untouched comes back
    field for field, provided none of its ingredients is empty after
    trimming; this holds for a recipe without ingredients too, whose one
    blank editing slot is dropped again. *)
Theorem edit_untouched_round_trip :
  forall r : Recipe,
    Forall (fun s => JS.trim s <> "") (ingredients r) ->
    RecipeForm.handleSubmit (RecipeForm.mount (Some r)) = fields r.
Proof.
  intros r H. apply data_eq; try reflexivity.
  change (filter (fun i => negb (JS.trim i =? ""))
                 (if (0 <? List.length (ingredients r))%nat
                  then ingredients r else [""])
          = ingredients r).
  destruct (ingredients r) as [|x l] eqn:E; [reflexivity|].
  cbn [List.length Nat.ltb Nat.leb].
  rewrite Forall_forall in H. apply forallb_filter_id, forallb_forall.
  intros s Hs. apply negb_true_iff, str_eqb_neq. auto.
Qed.

Lemma edit_untouched_round_trip_witness :
  RecipeForm.handleSubmit (RecipeForm.mount (Some tacos)) = fields tacos.
Proof.
  apply (edit_untouched_round_trip tacos).
  repeat constructor; discriminate.
Defined.

(** ** More on the filter *)

Section FilterMore.

Lemma Subsequence_filter_imp {A} (f g : A -> bool) l :
  (forall x, f x = true -> g x = true) ->
  Subsequence (filter f l) (filter g l).
Proof.
  intros H. induction l as [|x l IH]; simpl; [constructor|].
  destruct (f x) eqn:F.
  - rewrite (H x F). now constructor.
  - destruct (g x); [now constructor | exact IH].
Qed.

Lemma filter_filter_and {A} (f g : A -> bool) l :
  filter f (filter g l) = filter (fun x => g x && f x) l.
Proof.
  induction l as [|x l IH]; simpl; [reflexivity|].
  destruct (g x); simpl; [destruct (f x); now rewrite IH | exact IH].
Qed.

(** An ASCII text found inside a longer ASCII text is found wherever the
    longer one is. *)
Lemma LoweredContains_inner lower hay before text after :
  LowersAscii lower ->
  IsAscii before -> IsAscii text -> IsAscii after ->
  LoweredContains lower hay (before ++ text ++ after) ->
  LoweredContains lower hay text.
Proof.
  intros L Hb Ht Ha (p & q & H).
  assert (Hall : IsAscii (before ++ text ++ after)).
  { apply IsAscii_app. split; [exact Hb|]. apply IsAscii_app. now split. }
  rewrite (L _ Hall), !ascii_lower_app in H.
  exists (p ++ ascii_lower before), (ascii_lower after ++ q).
  rewrite (L _ Ht), H. now rewrite !append_assoc.
Qed.

Lemma matchesSearchWith_inner lower before text after r :
  LowersAscii lower ->
  IsAscii before -> IsAscii text -> IsAscii after ->
  matchesSearchWith lower (before ++ text ++ after) r = true ->
  matchesSearchWith lower text r = true.
Proof.
  intros L Hb Ht Ha. rewrite !matchesSearchWith_spec. intros [H|(i & Hi & H)].
  - left. apply (LoweredContains_inner lower _ before text after L Hb Ht Ha H).
  - right. exists i. split; [exact Hi|].
    apply (LoweredContains_inner lower _ before text after L Hb Ht Ha H).
Qed.

Lemma cuisine_str_inj c c' : cuisine_str c = cuisine_str c' -> c = c'.
Proof. destruct c, c'; simpl; intros H; try reflexivity; discriminate. Qed.

Lemma difficulty_str_inj d d' : difficulty_str d = difficulty_str d' -> d = d'.
Proof. destruct d, d'; simpl; intros H; try reflexivity; discriminate. Qed.

End FilterMore.

(** X7: a longer ASCII search text never shows more: for a lower-casing
    that does to ASCII text what the host does, and ASCII texts, whatever
    is typed before or after a text, the recipes then shown are a
    subsequence of those shown for the text alone. *)
Theorem longer_search_text_shows_less :
  forall (lower : string -> string),
    LowersAscii lower ->
    forall (C : list Recipe) (before text after cuisine difficulty : string),
      IsAscii before -> IsAscii text -> IsAscii after ->
      Subsequence
        (filteredRecipesWith lower C (before ++ text ++ after) cuisine difficulty)
        (filteredRecipesWith lower C text cuisine difficulty).
Proof.
  intros lower L C before text after cu di Hb Ht Ha.
  apply Subsequence_filter_imp.
  intros r. rewrite !andb_true_iff. intros [[H1 H2] H3].
  repeat split; auto.
  apply (matchesSearchWith_inner lower before text after r L Hb Ht Ha H1).
Qed.

Lemma longer_search_text_shows_less_witness :
  Subsequence (filteredRecipes [tacos; pasta] "Pasta B" "all" "all")
              (filteredRecipes [tacos; pasta] "a" "all" "all").
Proof.
  apply (longer_search_text_shows_less JS.toLowerCase toLowerCase_ascii
           [tacos; pasta] "P" "a" "sta B" "all" "all");
    simpl; repeat split; lia.
Defined.

(** X8: with a cuisine chosen in the menu every recipe shown has that
    cuisine, with a difficulty chosen every recipe shown has that
    difficulty, and a filter value that is neither "all" nor the name of a
    cuisine shows nothing. *)
Theorem chosen_filter_shows_only_its_kind :
  forall (C : list Recipe) (text : string),
    (forall (c : Cuisine) (difficulty : string) (r : Recipe),
        In r (filteredRecipes C text (cuisine_str c) difficulty) ->
        cuisine r = c)
    /\ (forall (cuisine : string) (d : Difficulty) (r : Recipe),
           In r (filteredRecipes C text cuisine (difficulty_str d)) ->
           difficulty r = d)
    /\ (forall (value difficulty : string),
           value <> "all" ->
           (forall c, value <> cuisine_str c) ->
           filteredRecipes C text value difficulty = []).
Proof.
  intros C text. split; [|split].
  - intros c di r H. apply filter_In in H as [_ H].
    rewrite !andb_true_iff in H. destruct H as [[_ H] _].
    apply matchesCuisine_spec in H as [H|H].
    + destruct c; discriminate.
    + symmetry. now apply cuisine_str_inj.
  - intros cu d r H. apply filter_In in H as [_ H].
    rewrite !andb_true_iff in H. destruct H as [_ H].
    apply matchesDifficulty_spec in H as [H|H].
    + destruct d; discriminate.
    + symmetry. now apply difficulty_str_inj.
  - intros value di Hall Hc.
    induction C as [|r C IH]; [reflexivity|]. simpl.
    replace (matchesCuisine value r) with false; [|symmetry].
    + rewrite andb_false_r. simpl. exact IH.
    + apply not_true_is_false. rewrite matchesCuisine_spec.
      intros [H|H]; [auto | apply (Hc _ H)].
Qed.

Lemma chosen_filter_shows_only_its_kind_witness :
  cuisine tacos = mexican
  /\ filteredRecipes [tacos] "" "Mexican" "all" = [].
Proof.
  destruct (chosen_filter_shows_only_its_kind [tacos] "") as (H1 & _ & H3).
  split.
  - apply (H1 mexican "all" tacos). simpl. left. reflexivity.
  - apply H3; [discriminate|]. intros c. destruct c; discriminate.
Defined.

(** X9: filtering in stages is filtering at once: the text filter followed
    by the two menu filters gives what the three give together, and
    filtering the result again with the same query changes nothing. *)
Theorem staged_filtering :
  forall (C : list Recipe) (text cuisine difficulty : string),
    filteredRecipes (filteredRecipes C text "all" "all") "" cuisine difficulty
    = filteredRecipes C text cuisine difficulty
    /\ filteredRecipes (filteredRecipes C text cuisine difficulty)
                       text cuisine difficulty
       = filteredRecipes C text cuisine difficulty.
Proof.
  intros C text cu di. unfold filteredRecipes. split.
  - rewrite filter_filter_and. apply filter_ext. intros r.
    rewrite matchesSearch_empty. simpl.
    unfold matchesCuisine at 1, matchesDifficulty at 1. simpl.
    rewrite !andb_true_r. apply andb_assoc.
  - apply filter_twice.
Qed.

(** ** More on the page: sessions *)

Section SessionFacts.

Import Dashboard.

(** An invariant of the states of a session: it holds once the page is
    mounted and every event keeps it. *)
Lemma session_invariant (P : State -> Prop) (Q : Event -> Prop) u :
  P (mounted u) ->
  (forall e st, Q e -> P st -> P (handle e st)) ->
  forall es st, Forall Q es -> exec es (mounted u) = Some st -> P st.
Proof.
  intros H0 Hstep es. revert H0. generalize (mounted u).
  induction es as [|e es IH]; intros st0 H0 st HQ H; simpl in H.
  - now injection H as <-.
  - destruct (enabled e st0); [|discriminate].
    inversion HQ as [|e' es' Qe Qes]; subst.
    apply (IH (handle e st0)); [apply Hstep | |]; assumption.
Qed.

Lemma Forall_any {A} (l : list A) : Forall (fun _ => True) l.
Proof. induction l; constructor; auto. Qed.

Lemma SignedOut_step e st :
  (forall u, e <> AuthChange (Some u)) -> SignedOut st -> SignedOut (handle e st).
Proof.
  intros He (Hu & Hs & Hi & Hr & Hd & Hn). unfold SignedOut.
  destruct e; simpl; auto 10.
  - destruct u as [u|]; [now elim (He u)|]. simpl.
    repeat split; auto. apply in_or_app. auto.
  - unfold visible. rewrite Hr. simpl. destruct i; simpl; auto 10.
  - unfold visible. rewrite Hr. simpl. destruct i; simpl; auto 10.
  - destruct (RecipeForm.emit e (form st)) as [[d|]|]; simpl; auto 10.
    unfold handleSaveRecipe. simpl. rewrite Hu.
    destruct (editingRecipe st); simpl; auto 10.
  - unfold handleDeleteRecipe. rewrite Hd. simpl. auto 10.
  - rewrite Hi. destruct k; simpl; auto 10.
Qed.

(** Sending a draft leaves the form and what is being edited alone. *)
Lemma handleSaveRecipe_form d st :
  showForm (handleSaveRecipe d st) = showForm st
  /\ editingRecipe (handleSaveRecipe d st) = editingRecipe st
  /\ form (handleSaveRecipe d st) = form st.
Proof.
  unfold handleSaveRecipe.
  destruct (editingRecipe st) eqn:E, (user st); simpl; auto.
Qed.

Lemma EditingShown_step e st : EditingShown st -> EditingShown (handle e st).
Proof.
  unfold EditingShown. intros H. destruct e; simpl; auto.
  - unfold effect. simpl. destruct u; simpl; auto.
  - discriminate.
  - destruct (nth_error (visible st) i); simpl; [discriminate | auto].
  - destruct (nth_error (visible st) i); simpl; auto.
  - destruct (RecipeForm.emit e (form st)) as [[d|]|]; simpl; auto.
    destruct (handleSaveRecipe_form d (setForm (RecipeForm.update e (form st)) st))
      as (-> & -> & _). exact H.
  - unfold handleDeleteRecipe.
    destruct (recipeToDelete st) as [t|]; simpl; auto.
    destruct (t =? ""); simpl; auto.
  - destruct (nth_error (inflight st) k) as [w|]; auto.
    destruct w; unfold fetchRecipes_resume, handleSaveRecipe_resume,
      handleDeleteRecipe_resume; destruct (error r); simpl; auto.
Qed.

(** A request that an event adds carries no row, or the normalised draft of
    a valid form. *)
Lemma handle_sent_row e st req :
  In req (sent (handle e st)) ->
  In req (sent st)
  \/ row_of req = None
  \/ exists d, row_of req = Some (RecipeForm.handleSubmit d)
               /\ RecipeForm.checkValidity d = true.
Proof.
  destruct e; simpl; auto.
  - unfold effect. simpl. destruct u; simpl; auto.
    rewrite in_app_iff. simpl. intros [H|[<-|[]]]; auto.
  - destruct (nth_error (visible st) i); simpl; auto.
  - destruct (nth_error (visible st) i); simpl; auto.
  - destruct e; simpl; auto.
    destruct (RecipeForm.checkValidity (form st)) eqn:V; simpl; auto.
    unfold handleSaveRecipe. simpl.
    destruct (editingRecipe st), (user st); simpl; auto;
      rewrite in_app_iff; simpl; intros [H|[<-|[]]]; auto;
      right; right; exists (form st); auto.
  - unfold handleDeleteRecipe.
    destruct (recipeToDelete st) as [t|]; simpl; auto.
    destruct (t =? ""); simpl; auto.
    rewrite in_app_iff. simpl. intros [H|[<-|[]]]; auto.
  - destruct (nth_error (inflight st) k) as [w|]; auto.
    destruct w; unfold fetchRecipes_resume, handleSaveRecipe_resume,
      handleDeleteRecipe_resume; destruct (error r); simpl; auto;
      rewrite in_app_iff; simpl; intros [H|[<-|[]]]; auto.
Qed.

Lemma valid_draft_is_clean d :
  RecipeForm.checkValidity d = true -> CleanRow (RecipeForm.handleSubmit d).
Proof.
  unfold RecipeForm.checkValidity. rewrite !andb_true_iff, !negb_true_iff.
  intros [[[[Ht Hi] _] _] _]. repeat split.
  - now apply str_eqb_neq.
  - now apply str_eqb_neq.
  - apply Forall_forall. intros s Hs. simpl in Hs.
    apply filter_In in Hs as [_ Hs].
    apply negb_true_iff in Hs. now apply str_eqb_neq.
Qed.

End SessionFacts.

(** X10: in a session without a signed-in user the page sends nothing to
    the remote store, whatever the user does: no request is sent or
    waiting, the collection stays empty, and the page has asked for the
    sign-in route. *)
Theorem signed_out_sends_nothing :
  forall (es : list Dashboard.Event) (st : Dashboard.State),
    Forall (fun e => forall u, e <> Dashboard.AuthChange (Some u)) es ->
    Dashboard.exec es (Dashboard.mounted None) = Some st ->
    Dashboard.sent st = []
    /\ Dashboard.inflight st = []
    /\ Dashboard.recipes st = []
    /\ In "/auth" (Dashboard.navigated st).
Proof.
  intros es st HQ H.
  assert (S : SignedOut st).
  { apply (session_invariant
             SignedOut
             (fun e => forall u, e <> Dashboard.AuthChange (Some u)) None)
      with (es := es); auto.
    - unfold SignedOut. simpl. auto 10.
    - apply SignedOut_step. }
  destruct S as (_ & Hs & Hi & Hr & _ & Hn). auto.
Qed.

Lemma signed_out_sends_nothing_witness :
  option_map Dashboard.sent
    (Dashboard.exec
       [Dashboard.ClickAdd;
        Dashboard.Form (RecipeForm.ChangeTitle "Toast");
        Dashboard.Form (RecipeForm.ChangeInstructions "Toast the bread");
        Dashboard.Form RecipeForm.ClickSubmit]
       (Dashboard.mounted None))
  = Some [].
Proof.
  destruct (Dashboard.exec
       [Dashboard.ClickAdd;
        Dashboard.Form (RecipeForm.ChangeTitle "Toast");
        Dashboard.Form (RecipeForm.ChangeInstructions "Toast the bread");
        Dashboard.Form RecipeForm.ClickSubmit]
       (Dashboard.mounted None)) as [st|] eqn:E.
  - simpl. f_equal.
    apply (signed_out_sends_nothing _ st) in E; [apply E|].
    repeat constructor; discriminate.
  - vm_compute in E. discriminate.
Defined.

(** X11: in any session the add button opens a blank draft: while the
    form is not shown no recipe is being edited, so the form mounted by the
    button is the initial one and no recipe is being edited in it. *)
Theorem add_opens_a_blank_draft :
  forall (u : option Dashboard.User) (es : list Dashboard.Event)
         (st : Dashboard.State),
    Dashboard.exec es (Dashboard.mounted u) = Some st ->
    Dashboard.showForm st = false ->
    Dashboard.editingRecipe st = None
    /\ Dashboard.form (Dashboard.handle Dashboard.ClickAdd st)
       = RecipeForm.initialFormData
    /\ Dashboard.editingRecipe (Dashboard.handle Dashboard.ClickAdd st) = None.
Proof.
  intros u es st H Hs.
  assert (E : Dashboard.editingRecipe st = None).
  { apply (session_invariant EditingShown (fun _ => True) u) with (es := es);
      auto using Forall_any.
    - intros _. destruct u; reflexivity.
    - intros e st0 _. apply EditingShown_step. }
  split; [exact E|]. simpl. rewrite E. split; reflexivity.
Qed.

Lemma add_opens_a_blank_draft_witness :
  Dashboard.form
    (Dashboard.handle Dashboard.ClickAdd
       (Dashboard.handle (Dashboard.Form RecipeForm.ClickCancel)
          (Dashboard.handle (Dashboard.CardEdit 0)
             (Dashboard.handle (Dashboard.Settle 0 answer_tacos)
                (Dashboard.mounted (Some cook))))))
  = RecipeForm.initialFormData.
Proof.
  apply (add_opens_a_blank_draft (Some cook)
           [Dashboard.Settle 0 answer_tacos;
            Dashboard.CardEdit 0;
            Dashboard.Form RecipeForm.ClickCancel]).
  - vm_compute. reflexivity.
  - vm_compute. reflexivity.
Defined.

(** X12: in any session every row the page sends to the remote store, in
    an insert or in an update, has a title, has instructions, and has no
    ingredient that is empty after trimming. *)
Theorem rows_sent_are_clean :
  forall (u : option Dashboard.User) (es : list Dashboard.Event)
         (st : Dashboard.State) (req : Dashboard.Request) (row : RecipeData),
    Dashboard.exec es (Dashboard.mounted u) = Some st ->
    In req (Dashboard.sent st) ->
    row_of req = Some row ->
    CleanRow row.
Proof.
  intros u es st req row H.
  revert req row.
  apply (session_invariant
           (fun st => forall req row, In req (Dashboard.sent st) ->
                                      row_of req = Some row -> CleanRow row)
           (fun _ => True) u) with (es := es); auto using Forall_any.
  - intros req row. destruct u; simpl; [intros [<-|[]]|intros []]; discriminate.
  - intros e st0 _ IH req row Hin Hrow.
    apply handle_sent_row in Hin as [Hin|[Hn|(d & Hd & Hv)]].
    + eauto.
    + congruence.
    + rewrite Hd in Hrow. injection Hrow as <-. now apply valid_draft_is_clean.
Qed.

Lemma rows_sent_are_clean_witness :
  CleanRow (mkData "Toast" [] "Toast the bread" medium other None None
                   (Some (JS.Int 4))).
Proof.
  apply (rows_sent_are_clean (Some cook)
           [Dashboard.ClickAdd;
            Dashboard.Form (RecipeForm.ChangeTitle "Toast");
            Dashboard.Form (RecipeForm.ChangeInstructions "Toast the bread");
            Dashboard.Form RecipeForm.ClickSubmit]
           (Dashboard.handle (Dashboard.Form RecipeForm.ClickSubmit)
              (Dashboard.handle
                 (Dashboard.Form (RecipeForm.ChangeInstructions "Toast the bread"))
                 (Dashboard.handle (Dashboard.Form (RecipeForm.ChangeTitle "Toast"))
                    (Dashboard.handle Dashboard.ClickAdd
                       (Dashboard.mounted (Some cook))))))
           (Dashboard.Insert
              (mkData "Toast" [] "Toast the bread" medium other None None
                      (Some (JS.Int 4))) "u1")).
  - vm_compute. reflexivity.
  - vm_compute. right. left. reflexivity.
  - reflexivity.
Defined.

Section Provenance.

Import Dashboard.

Lemma Delivered_snoc es e r : Delivered es r -> Delivered (es ++ [e]) r.
Proof.
  intros (k & a & d & H & Hd & Hr). exists k, a, d.
  repeat split; auto. apply in_or_app. auto.
Qed.

Lemma Known_snoc es e target : Known es target -> Known (es ++ [e]) target.
Proof. intros (r & H & Hid). exists r. split; [now apply Delivered_snoc | exact Hid]. Qed.

Lemma visible_in_recipes st i r :
  nth_error (visible st) i = Some r -> In r (recipes st).
Proof.
  intros H. apply nth_error_In in H. unfold visible, filteredRecipes in H.
  now apply filter_In in H.
Qed.

(** The recipe being edited comes from the edit button of a card. *)
Lemma handle_editingRecipe e st r :
  editingRecipe (handle e st) = Some r ->
  editingRecipe st = Some r
  \/ exists i, e = CardEdit i /\ nth_error (visible st) i = Some r.
Proof.
  destruct e; simpl; auto.
  - unfold effect. simpl. destruct u; simpl; auto.
  - destruct (nth_error (visible st) i) as [x|] eqn:Hi; simpl; auto.
    intros H. injection H as <-. right. now exists i.
  - destruct (nth_error (visible st) i); simpl; auto.
  - destruct (RecipeForm.emit e (form st)) as [[d|]|]; simpl; auto.
    + destruct (handleSaveRecipe_form d (setForm (RecipeForm.update e (form st)) st))
        as (_ & -> & _). auto.
    + discriminate.
  - unfold handleDeleteRecipe.
    destruct (recipeToDelete st) as [t|]; simpl; auto.
    destruct (t =? ""); simpl; auto.
  - destruct (nth_error (inflight st) k) as [w|]; auto.
    destruct w; unfold fetchRecipes_resume, handleSaveRecipe_resume,
      handleDeleteRecipe_resume; destruct (error r0); simpl; auto; discriminate.
Qed.

(** A request that an event adds and that names a row names the recipe
    being edited or the recipe to delete. *)
Lemma handle_sent_target e st req :
  In req (sent (handle e st)) ->
  In req (sent st)
  \/ target_of req = None
  \/ (exists r, editingRecipe st = Some r /\ target_of req = Some (id r))
  \/ (exists t, recipeToDelete st = Some t /\ target_of req = Some t).
Proof.
  destruct e; simpl; auto.
  - unfold effect. simpl. destruct u; simpl; auto.
    rewrite in_app_iff. simpl. intros [H|[<-|[]]]; auto.
  - destruct (nth_error (visible st) i); simpl; auto.
  - destruct (nth_error (visible st) i); simpl; auto.
  - destruct (RecipeForm.emit e (form st)) as [[d|]|]; simpl; auto.
    unfold handleSaveRecipe. simpl.
    destruct (editingRecipe st) as [r|] eqn:E, (user st); simpl; auto;
      rewrite in_app_iff; simpl; intros [H|[<-|[]]]; auto.
    right. right. left. now exists r.
  - unfold handleDeleteRecipe.
    destruct (recipeToDelete st) as [t|] eqn:E; simpl; auto.
    destruct (t =? ""); simpl; auto.
    rewrite in_app_iff. simpl. intros [H|[<-|[]]]; auto.
    right. right. right. now exists t.
  - destruct (nth_error (inflight st) k) as [w|]; auto.
    destruct w; unfold fetchRecipes_resume, handleSaveRecipe_resume,
      handleDeleteRecipe_resume; destruct (error r); simpl; auto;
      rewrite in_app_iff; simpl; intros [H|[<-|[]]]; auto.
Qed.

(** Along a session the collection, the recipe being edited, the id to
    delete and the rows named in requests all come from answers of the
    remote store. *)
Lemma session_provenance u es : forall st,
  exec es (mounted u) = Some st ->
  (forall r, In r (recipes st) -> Delivered es r)
  /\ (forall r, editingRecipe st = Some r -> Delivered es r)
  /\ (forall t, recipeToDelete st = Some t -> Known es t)
  /\ (forall req t, In req (sent st) -> target_of req = Some t -> Known es t).
Proof.
  induction es as [|e es IH] using rev_ind; intros st H.
  - simpl in H. injection H as <-.
    unfold mounted, effect. destruct u; simpl; repeat split;
      try contradiction; try discriminate.
    intros req t [<-|[]]. discriminate.
  - apply exec_snoc in H as (st1 & H1 & _ & ->).
    destruct (IH _ H1) as (Ir & Ie & Id & Is).
    assert (Ir' : forall r, In r (recipes (handle e st1)) ->
                            Delivered (es ++ [e]) r).
    { intros r Hr.
      destruct (handle_recipes e st1) as [E|(k & a & -> & _ & _ & E)];
        rewrite E in Hr.
      - apply Delivered_snoc. auto.
      - destruct (data a) as [d|] eqn:Hd; [|contradiction].
        exists k, a, d. repeat split; auto. apply in_or_app. simpl. auto. }
    split; [exact Ir'|]. split; [|split].
    + intros r Hr. apply Delivered_snoc.
      apply handle_editingRecipe in Hr as [Hr|(i & -> & Hi)]; auto.
      apply Ir. eapply visible_in_recipes, Hi.
    + intros t Ht. apply Known_snoc.
      apply handle_recipeToDelete in Ht as [Ht|(i & r & -> & Hi & Hid)]; auto.
      exists r. split; [|exact Hid]. apply Ir. eapply visible_in_recipes, Hi.
    + intros req t Hin Ht. apply Known_snoc.
      apply handle_sent_target in Hin
        as [Hin|[Hn|[(r & Hr & Hq)|(t' & Hd & Hq)]]].
      * eauto.
      * congruence.
      * exists r. split; [auto | congruence].
      * replace t with t' by congruence. auto.
Qed.

End Provenance.

(** X13: in any session an update or a delete that the page sends names a
    recipe that the remote store has delivered earlier in the session: the
    page changes and deletes only what it has been given. *)
Theorem mutations_name_delivered_recipes :
  forall (u : option Dashboard.User) (es : list Dashboard.Event)
         (st : Dashboard.State),
    Dashboard.exec es (Dashboard.mounted u) = Some st ->
    (forall target row user_id,
        In (Dashboard.Update target row user_id) (Dashboard.sent st) ->
        Known es target)
    /\ (forall target,
           In (Dashboard.Delete target) (Dashboard.sent st) ->
           Known es target).
Proof.
  intros u es st H. destruct (session_provenance u es st H) as (_ & _ & _ & Hs).
  split.
  - intros target row user_id Hin. apply (Hs _ _ Hin). reflexivity.
  - intros target Hin. apply (Hs _ _ Hin). reflexivity.
Qed.

Lemma mutations_name_delivered_recipes_witness :
  Known [Dashboard.Settle 0 answer_tacos;
         Dashboard.CardDelete 0;
         Dashboard.DialogAction] "r1".
Proof.
  apply (proj2 (mutations_name_delivered_recipes (Some cook)
           [Dashboard.Settle 0 answer_tacos;
            Dashboard.CardDelete 0;
            Dashboard.DialogAction]
           (Dashboard.handle Dashboard.DialogAction
              (Dashboard.handle (Dashboard.CardDelete 0)
                 (Dashboard.handle (Dashboard.Settle 0 answer_tacos)
                    (Dashboard.mounted (Some cook)))))
           ltac:(vm_compute; reflexivity))).
  vm_compute. right. left. reflexivity.
Defined.

Section Resubmission.

Import Dashboard.

Lemma nth_error_last {A} (l : list A) x :
  nth_error (l ++ [x]) (List.length l) = Some x.
Proof. rewrite nth_error_app2 by lia. now rewrite Nat.sub_diag. Qed.

Lemma without_last {A} (l : list A) x : without (List.length l) (l ++ [x]) = l.
Proof. unfold without. apply cut_last. Qed.

(** What a click on the submit button of a valid form does when a user is
    signed in: one request with the normalised draft leaves, and its
    handler waits. *)
Lemma submit_sends st u :
  user st = Some u ->
  RecipeForm.checkValidity (form st) = true ->
  exists req,
    row_of req = Some (RecipeForm.handleSubmit (form st))
    /\ req = match editingRecipe st with
             | Some editing =>
                 Update (id editing) (RecipeForm.handleSubmit (form st)) (uid u)
             | None => Insert (RecipeForm.handleSubmit (form st)) (uid u)
             end
    /\ handle (Form RecipeForm.ClickSubmit) st
       = send req (InSave (editingRecipe st)) st.
Proof.
  intros Hu Hv. simpl. rewrite Hv. unfold handleSaveRecipe. simpl. rewrite Hu.
  assert (E : setForm (form st) st = st) by now destruct st.
  rewrite E.
  destruct (editingRecipe st) as [editing|].
  - exists (Update (id editing) (RecipeForm.handleSubmit (form st)) (uid u)).
    repeat split.
  - exists (Insert (RecipeForm.handleSubmit (form st)) (uid u)).
    repeat split.
Qed.

End Resubmission.

(** X14: nothing holds back a second submission: while the save of a
    valid form is waiting for its answer the submit button still works,
    and a second click sends the same request a second time. *)
Theorem submit_twice_sends_twice :
  forall (st : Dashboard.State) (u : Dashboard.User),
    Dashboard.showForm st = true ->
    Dashboard.user st = Some u ->
    RecipeForm.checkValidity (Dashboard.form st) = true ->
    let st1 := Dashboard.handle (Dashboard.Form RecipeForm.ClickSubmit) st in
    exists req,
      row_of req = Some (RecipeForm.handleSubmit (Dashboard.form st))
      /\ Dashboard.sent st1 = (Dashboard.sent st ++ [req])%list
      /\ Dashboard.enabled (Dashboard.Form RecipeForm.ClickSubmit) st1 = true
      /\ Dashboard.sent
           (Dashboard.handle (Dashboard.Form RecipeForm.ClickSubmit) st1)
         = (Dashboard.sent st ++ [req; req])%list.
Proof.
  intros st u Hs Hu Hv st1.
  destruct (submit_sends st u Hu Hv) as (req & Hrow & Hreq & E).
  exists req. subst st1. rewrite E. split; [exact Hrow|]. split; [reflexivity|].
  split; [simpl; now rewrite Hs|].
  destruct (submit_sends (Dashboard.send req
                            (Dashboard.InSave (Dashboard.editingRecipe st)) st) u)
    as (req' & _ & Hreq' & E'); [exact Hu | exact Hv |].
  rewrite E'. simpl. rewrite <- app_assoc. simpl.
  simpl in Hreq'. rewrite <- Hreq in Hreq'. now subst req'.
Qed.

Lemma submit_twice_sends_twice_witness :
  let st := Dashboard.handle
              (Dashboard.Form (RecipeForm.ChangeInstructions "Toast the bread"))
              (Dashboard.handle (Dashboard.Form (RecipeForm.ChangeTitle "Toast"))
                 (Dashboard.handle Dashboard.ClickAdd
                    (Dashboard.mounted (Some cook)))) in
  exists req,
    Dashboard.sent
      (Dashboard.handle (Dashboard.Form RecipeForm.ClickSubmit)
         (Dashboard.handle (Dashboard.Form RecipeForm.ClickSubmit) st))
    = [Dashboard.Select; req; req].
Proof.
  cbv zeta.
  destruct (submit_twice_sends_twice
              (Dashboard.handle
                 (Dashboard.Form (RecipeForm.ChangeInstructions "Toast the bread"))
                 (Dashboard.handle (Dashboard.Form (RecipeForm.ChangeTitle "Toast"))
                    (Dashboard.handle Dashboard.ClickAdd
                       (Dashboard.mounted (Some cook)))))
              cook eq_refl eq_refl eq_refl) as (req & _ & _ & _ & H).
  exists req. exact H.
Defined.

(** X15: a save that fails keeps the draft: once the remote store has
    answered the save of a valid form with an error, the form is still
    shown with the same draft and the same recipe being edited, and
    submitting again sends the same request again. *)
Theorem failed_save_can_be_retried :
  forall (st : Dashboard.State) (u : Dashboard.User) (r : Dashboard.Response)
         (message : string),
    Dashboard.showForm st = true ->
    Dashboard.user st = Some u ->
    RecipeForm.checkValidity (Dashboard.form st) = true ->
    Dashboard.error r = Some message ->
    let st1 := Dashboard.handle (Dashboard.Form RecipeForm.ClickSubmit) st in
    let st2 :=
      Dashboard.handle
        (Dashboard.Settle (List.length (Dashboard.inflight st)) r) st1 in
    Dashboard.showForm st2 = true
    /\ Dashboard.form st2 = Dashboard.form st
    /\ Dashboard.editingRecipe st2 = Dashboard.editingRecipe st
    /\ Dashboard.inflight st2 = Dashboard.inflight st
    /\ exists req,
         Dashboard.sent st2 = (Dashboard.sent st ++ [req])%list
         /\ Dashboard.sent
              (Dashboard.handle (Dashboard.Form RecipeForm.ClickSubmit) st2)
            = (Dashboard.sent st ++ [req; req])%list.
Proof.
  intros st u r message Hs Hu Hv He st1 st2.
  destruct (submit_sends st u Hu Hv) as (req & Hrow & Hreq & E).
  assert (E2 : st2 = Dashboard.toast
                       (Dashboard.mkToast
                          (match Dashboard.editingRecipe st with
                           | Some _ => "Error updating recipe"
                           | None => "Error creating recipe"
                           end) (Some message) true)
                       (Dashboard.setSent (Dashboard.sent st ++ [req]) st)).
  { subst st2 st1. rewrite E. cbn [Dashboard.handle].
    change (Dashboard.inflight
              (Dashboard.send req (Dashboard.InSave (Dashboard.editingRecipe st)) st))
      with (Dashboard.inflight st
            ++ [Dashboard.InSave (Dashboard.editingRecipe st)])%list.
    rewrite nth_error_last, without_last.
    unfold Dashboard.handleSaveRecipe_resume. rewrite He.
    destruct st; reflexivity. }
  rewrite E2. repeat split; auto.
  exists req. split; [reflexivity|].
  match goal with
  | |- Dashboard.sent (Dashboard.handle _ ?s) = _ =>
      destruct (submit_sends s u) as (req' & _ & Hreq' & E'); [exact Hu|exact Hv|]
  end.
  rewrite E'. simpl. rewrite <- app_assoc. simpl.
  simpl in Hreq'. rewrite <- Hreq in Hreq'. now subst req'.
Qed.

Lemma failed_save_can_be_retried_witness :
  let st := Dashboard.handle
              (Dashboard.Form (RecipeForm.ChangeInstructions "Toast the bread"))
              (Dashboard.handle (Dashboard.Form (RecipeForm.ChangeTitle "Toast"))
                 (Dashboard.handle Dashboard.ClickAdd
                    (Dashboard.handle (Dashboard.Settle 0 answer_tacos)
                       (Dashboard.mounted (Some cook))))) in
  Dashboard.form
    (Dashboard.handle (Dashboard.Settle 0 answer_failed)
       (Dashboard.handle (Dashboard.Form RecipeForm.ClickSubmit) st))
  = Dashboard.form st.
Proof.
  cbv zeta.
  apply (failed_save_can_be_retried
           (Dashboard.handle
              (Dashboard.Form (RecipeForm.ChangeInstructions "Toast the bread"))
              (Dashboard.handle (Dashboard.Form (RecipeForm.ChangeTitle "Toast"))
                 (Dashboard.handle Dashboard.ClickAdd
                    (Dashboard.handle (Dashboard.Settle 0 answer_tacos)
                       (Dashboard.mounted (Some cook))))))
           cook answer_failed "connection lost"
           eq_refl eq_refl eq_refl eq_refl).
Defined.

(** X16: the page shows the form alone exactly while [showForm]; the
    message that no recipe was found is shown only when the form is not
    shown, loading is over, the collection is not empty and no recipe of it
    passes the filter, never under the neutral query; the message that
    there are no recipes yet is shown exactly when the form is not shown,
    loading is over and the collection is empty; and the cards shown are
    the non-empty list of the visible recipes. *)
Theorem empty_states_of_the_page :
  forall st : Dashboard.State,
    (Dashboard.body st = Dashboard.FormAlone <-> Dashboard.showForm st = true)
    /\ (Dashboard.body st = Dashboard.NoRecipesFound ->
        Dashboard.showForm st = false
        /\ Dashboard.loading st = false
        /\ Dashboard.recipes st <> []
        /\ Dashboard.visible st = [])
    /\ (Dashboard.searchTerm st = "" ->
        Dashboard.cuisineFilter st = "all" ->
        Dashboard.difficultyFilter st = "all" ->
        Dashboard.body st <> Dashboard.NoRecipesFound)
    /\ (Dashboard.body st = Dashboard.NoRecipesYet
        <-> Dashboard.showForm st = false
            /\ Dashboard.loading st = false /\ Dashboard.recipes st = [])
    /\ (forall cards,
           Dashboard.body st = Dashboard.Grid cards ->
           Dashboard.showForm st = false
           /\ Dashboard.loading st = false
           /\ cards <> [] /\ cards = Dashboard.visible st).
Proof.
  intros st. unfold Dashboard.body.
  split; [|split; [|split; [|split]]].
  - destruct (Dashboard.showForm st); [tauto|].
    split; [|discriminate].
    destruct (Dashboard.loading st); [discriminate|].
    destruct (Dashboard.visible st); simpl; [|discriminate].
    destruct (Dashboard.recipes st); simpl; discriminate.
  - destruct (Dashboard.showForm st); [discriminate|].
    destruct (Dashboard.loading st); [discriminate|].
    destruct (Dashboard.visible st) as [|v vs] eqn:V; simpl; [|discriminate].
    destruct (Dashboard.recipes st) as [|x xs] eqn:R; simpl; [discriminate|].
    intros _. repeat split. discriminate.
  - intros Ht Hc Hd. unfold Dashboard.visible. rewrite Ht, Hc, Hd.
    replace (filteredRecipes (Dashboard.recipes st) "" "all" "all")
      with (Dashboard.recipes st).
    + destruct (Dashboard.showForm st); [discriminate|].
      destruct (Dashboard.loading st); [discriminate|].
      destruct (Dashboard.recipes st); simpl; discriminate.
    + symmetry. apply filter_all. intros r. now rewrite matchesSearch_empty.
  - destruct (Dashboard.showForm st).
    { split; [discriminate | intros [H _]; discriminate]. }
    destruct (Dashboard.loading st).
    + split; [discriminate | intros (_ & H & _); discriminate].
    + destruct (Dashboard.recipes st) as [|x xs] eqn:R.
      * unfold Dashboard.visible. rewrite R. simpl. tauto.
      * destruct (Dashboard.visible st); simpl;
          (split; [discriminate | intros (_ & _ & H); discriminate]).
  - intros cards. destruct (Dashboard.showForm st); [discriminate|].
    destruct (Dashboard.loading st); [discriminate|].
    destruct (Dashboard.visible st) as [|v vs]; simpl.
    + destruct (Dashboard.recipes st); simpl; discriminate.
    + intros H. injection H as <-. repeat split. discriminate.
Qed.

Lemma empty_states_of_the_page_witness :
  Dashboard.body
    (Dashboard.handle (Dashboard.Settle 0 answer_tacos)
                      (Dashboard.mounted (Some cook)))
  <> Dashboard.NoRecipesFound
  /\ Dashboard.body
       (Dashboard.handle Dashboard.ClickAdd
          (Dashboard.handle (Dashboard.Settle 0 answer_done)
                            (Dashboard.mounted (Some cook))))
     = Dashboard.FormAlone
  /\ Dashboard.recipes
       (Dashboard.handle (Dashboard.Settle 0 answer_done)
                         (Dashboard.mounted (Some cook))) = [].
Proof.
  split; [|split].
  - apply (proj1 (proj2 (proj2 (empty_states_of_the_page
             (Dashboard.handle (Dashboard.Settle 0 answer_tacos)
                               (Dashboard.mounted (Some cook)))))));
      reflexivity.
  - apply (proj1 (empty_states_of_the_page
             (Dashboard.handle Dashboard.ClickAdd
                (Dashboard.handle (Dashboard.Settle 0 answer_done)
                                  (Dashboard.mounted (Some cook)))))).
    reflexivity.
  - apply (proj1 (proj1 (proj2 (proj2 (proj2 (empty_states_of_the_page
             (Dashboard.handle (Dashboard.Settle 0 answer_done)
                               (Dashboard.mounted (Some cook))))))))).
    reflexivity.
Defined.

(** X17: the round of a delete from a card: the delete button opens the
    dialog on the id of the recipe; the action button then closes the
    dialog and, for an id that is not the empty string, sends one delete
    for that id; for the empty id, which counts as no id, it sends nothing
    and the id stays pending. *)
Theorem delete_round_from_a_card :
  forall (st : Dashboard.State) (i : nat) (r : Recipe),
    nth_error (Dashboard.visible st) i = Some r ->
    let st1 := Dashboard.handle (Dashboard.CardDelete i) st in
    let st2 := Dashboard.handle Dashboard.DialogAction st1 in
    Dashboard.deleteDialogOpen st1 = true
    /\ Dashboard.recipeToDelete st1 = Some (id r)
    /\ Dashboard.deleteDialogOpen st2 = false
    /\ (id r <> "" ->
        Dashboard.sent st2 = (Dashboard.sent st ++ [Dashboard.Delete (id r)])%list
        /\ Dashboard.inflight st2
           = (Dashboard.inflight st ++ [Dashboard.InDelete])%list)
    /\ (id r = "" ->
        Dashboard.sent st2 = Dashboard.sent st
        /\ Dashboard.inflight st2 = Dashboard.inflight st
        /\ Dashboard.recipeToDelete st2 = Some "").
Proof.
  intros st i r Hi st1 st2. subst st1 st2. simpl. rewrite Hi. simpl.
  unfold Dashboard.handleDeleteRecipe. simpl.
  split; [reflexivity|]. split; [reflexivity|]. split; [|split].
  - destruct (id r =? ""); reflexivity.
  - intros H. apply str_eqb_neq in H. rewrite H. split; reflexivity.
  - intros H. rewrite H. repeat split.
Qed.

Lemma delete_round_from_a_card_witness :
  Dashboard.sent
    (Dashboard.handle Dashboard.DialogAction
       (Dashboard.handle (Dashboard.CardDelete 0)
          (Dashboard.handle (Dashboard.Settle 0 answer_tacos)
             (Dashboard.mounted (Some cook)))))
  = [Dashboard.Select; Dashboard.Delete "r1"].
Proof.
  destruct (delete_round_from_a_card
              (Dashboard.handle (Dashboard.Settle 0 answer_tacos)
                                (Dashboard.mounted (Some cook)))
              0 tacos eq_refl) as (_ & _ & _ & H & _).
  apply H. discriminate.
Defined.


